(** * A NeoPixel strip that behaves like a voice assistant's status ring

    Shallow embedding of [alexa_neopixel_controller.py] and the properties
    of its animation engine.

    The module is written for MicroPython and falls back to desktop
    Python.  Two points of the language decide what the code does, and they
    are modelled explicitly instead of being read away:

    - numbers are dynamically typed: [pynum] is an [int] or a [float], and
      [range] accepts an [int] only;
    - the operator [/] differs between interpreters: on MicroPython and
      Python 3 it is true division (the quotient of two ints is a float),
      on Python 2 it is floor division on ints.  Every function that
      divides takes the interpreter as its first argument.

    The strip is modelled in simulation mode ([np_pin] is [None]): the
    buffer [self.np] is a Python list and a frame is rendered by [pprint].
    The driver of a physical strip, the button interrupt and the clock are
    outside the engine; rendering and sleeping are recorded in a log. *)

From Stdlib Require Import ZArith QArith Lia.
From stdpp Require Import base list.

Close Scope Q_scope.
Open Scope Z_scope.

(** ** Python values and exceptions *)

Inductive dialect := Python2 | Python3.

Inductive exn := TypeError | IndexError | ValueError | ZeroDivisionError.

Inductive result (A : Type) :=
| OK (a : A)
| Raise (e : exn).
Arguments OK {A} a.
Arguments Raise {A} e.

Definition bind {A B} (r : result A) (k : A -> result B) : result B :=
  match r with
  | OK a => k a
  | Raise e => Raise e
  end.

Notation "'let*' x ':=' e 'in' k" := (bind e (fun x => k))
  (at level 10, x pattern, e at level 100, k at level 200).

(** A float is modelled by the rational it denotes.  No property below
    depends on the rounding of a float: what matters is that the value is
    a float, and, in [math_trunc], the quotient of two small ints. *)
Inductive pynum :=
| PInt (z : Z)
| PFloat (q : Q).

Definition to_Q (n : pynum) : Q :=
  match n with
  | PInt z => inject_Z z
  | PFloat q => q
  end.

Definition py_mul (a b : pynum) : pynum :=
  match a, b with
  | PInt x, PInt y => PInt (x * y)
  | _, _ => PFloat (to_Q a * to_Q b)
  end.

Definition py_sub (a b : pynum) : pynum :=
  match a, b with
  | PInt x, PInt y => PInt (x - y)
  | _, _ => PFloat (to_Q a - to_Q b)
  end.

(** [a / b]. *)
Definition py_div (py : dialect) (a b : pynum) : result pynum :=
  match a, b with
  | PInt x, PInt y =>
      if y =? 0 then Raise ZeroDivisionError
      else match py with
           | Python2 => OK (PInt (x / y))
           | Python3 => OK (PFloat (inject_Z x / inject_Z y))
           end
  | _, _ =>
      if Qeq_bool (to_Q b) 0 then Raise ZeroDivisionError
      else OK (PFloat (to_Q a / to_Q b))
  end.

(** [a == b] and [a > b] on numbers. *)
Definition py_eq (a b : pynum) : bool :=
  match a, b with
  | PInt x, PInt y => x =? y
  | _, _ => Qeq_bool (to_Q a) (to_Q b)
  end.

Definition py_gt (a b : pynum) : bool :=
  match a, b with
  | PInt x, PInt y => y <? x
  | _, _ => negb (Qle_bool (to_Q a) (to_Q b))
  end.

(** [math.trunc]: the integral part, rounding toward zero. *)
Definition math_trunc (n : pynum) : Z :=
  match n with
  | PInt z => z
  | PFloat q => Z.quot (Qnum q) (Zpos (Qden q))
  end.

Definition upto (n : Z) : list Z := map Z.of_nat (seq 0 (Z.to_nat n)).

(** [range(n)]: a float is refused, whatever its value. *)
Definition py_range (n : pynum) : result (list Z) :=
  match n with
  | PInt z => OK (upto z)
  | PFloat _ => Raise TypeError
  end.

(** ** Python lists *)

(** The position an index denotes in a list of length [len]: negative
    indices count from the end, anything else is an [IndexError]. *)
Definition py_norm (len : nat) (i : Z) : result nat :=
  if (0 <=? i) && (i <? Z.of_nat len) then OK (Z.to_nat i)
  else if (- Z.of_nat len <=? i) && (i <? 0) then OK (Z.to_nat (Z.of_nat len + i))
  else Raise IndexError.

(** [l[i]] *)
Definition py_get {A} (l : list A) (i : Z) : result A :=
  let* k := py_norm (length l) i in
  match l !! k with
  | Some x => OK x
  | None => Raise IndexError
  end.

(** [l[i] = v] *)
Definition py_set {A} (l : list A) (i : Z) (v : A) : result (list A) :=
  let* k := py_norm (length l) i in
  OK (<[k:=v]> l).

(** [l.index(x)] *)
Fixpoint py_index {A} `{EqDecision A} (x : A) (l : list A) : result Z :=
  match l with
  | [] => Raise ValueError
  | y :: l' => if bool_decide (y = x) then OK 0
               else (let* k := py_index x l' in OK (k + 1))
  end.

(** A [for] loop over a list of indices, threading the loop's state. *)
Fixpoint for_each {I S} (body : I -> S -> result S) (l : list I) (s : S)
  : result S :=
  match l with
  | [] => OK s
  | i :: l' => let* s' := body i s in for_each body l' s'
  end.

(** ** Configuration: the module's globals *)

Abbreviation color := (Z * Z * Z)%type.

Definition BLUE : color := (0, 5, 40).
Definition CYAN : color := (0, 40, 40).
Definition BLACK : color := (0, 0, 0).

Record config := {
  NUM_LIGHTS : Z;
  ALEXA_ALTERNATING_FLASH_WIDTH : Z;
  ALEXA_POINTER_WIDTH : Z;
  ALEXA_HALF_POINTER_WIDTH : Z;
  ALEXA_LOOK_OFFSET_BASE : Z;
  SLEEP_TIME : pynum
}.

(** [FPS = 24.0] and [SLEEP_TIME = 1/FPS]. *)
Definition FPS : pynum := PFloat (24 # 1).

Definition default_config : config := {|
  NUM_LIGHTS := 20;
  ALEXA_ALTERNATING_FLASH_WIDTH := 2;
  ALEXA_POINTER_WIDTH := 4;
  ALEXA_HALF_POINTER_WIDTH := 2;
  ALEXA_LOOK_OFFSET_BASE := 2;
  SLEEP_TIME := PFloat (1 / to_Q FPS)
|}.

(** ** The engine's state *)

Inductive event :=
| Render (frame : list color)
| Sleep (seconds : pynum).

(** [np] is the frame buffer, [log] what was rendered and slept so far,
    oldest first, and [draws] the number of random bits drawn so far. *)
Record engine := {
  np : list color;
  log : list event;
  draws : nat
}.

Definition with_np (st : engine) (l : list color) : engine :=
  {| np := l; log := log st; draws := draws st |}.

Definition emit (st : engine) (e : event) : engine :=
  {| np := np st; log := log st ++ [e]; draws := draws st |}.

(** [pprint] reads [np[0]] and [np[-1]]: it raises on an empty list. *)
Definition pprint {A} (l : list A) : result unit :=
  match l with
  | [] => Raise IndexError
  | _ => OK tt
  end.

(** Rendering a frame in simulation mode: [pprint(self.np)]. *)
Definition render (st : engine) : result engine :=
  let* _ := pprint (np st) in
  OK (emit st (Render (np st))).

(** [time.sleep(seconds)] *)
Definition sleep (seconds : pynum) (st : engine) : result engine :=
  OK (emit st (Sleep seconds)).

(** [set_neopixel_to_list(np, input_list)] *)
Definition set_neopixel_to_list {A} (l : list A) (input_list : list A)
  : result (list A) :=
  for_each (fun i l => let* v := py_get input_list i in py_set l i v)
           (upto (Z.of_nat (length input_list))) l.

(** ** fade_to_color *)

(** One channel of [new_color]: the offset
    [math.trunc((color[c] - starting_color[c])/frames)*(frame+1)] added to
    the starting channel. *)
Definition fade_channel (py : dialect) (target start : Z) (frames : pynum)
  (frame : Z) : result Z :=
  let* q := py_div py (PInt (target - start)) frames in
  OK (start + math_trunc q * (frame + 1)).

Definition fade_pixel (py : dialect) (target : color) (frames : pynum)
  (frame : Z) (starting_color : color) : result color :=
  let '(tr, tg, tb) := target in
  let '(sr, sg, sb) := starting_color in
  let* r := fade_channel py tr sr frames frame in
  let* g := fade_channel py tg sg frames frame in
  let* b := fade_channel py tb sb frames frame in
  OK (r, g, b).

(** The buffer of frame [frame]: the target on the last frame, the
    interpolation from [np_cache] on the others. *)
Definition fade_buffer (py : dialect) (cfg : config) (target : color)
  (frames : pynum) (np_cache : list color) (frame : Z) (l : list color)
  : result (list color) :=
  if py_eq (PInt frame) (py_sub frames (PInt 1))
  then set_neopixel_to_list l (repeat target (Z.to_nat (NUM_LIGHTS cfg)))
  else for_each
         (fun pixel l =>
            let* starting_color := py_get np_cache pixel in
            let* new_color := fade_pixel py target frames frame starting_color in
            py_set l pixel new_color)
         (upto (Z.of_nat (length np_cache))) l.

Definition fade_frame (py : dialect) (cfg : config) (target : color)
  (frames : pynum) (np_cache : list color) (frame : Z) (st : engine)
  : result engine :=
  let* l := fade_buffer py cfg target frames np_cache frame (np st) in
  let* st := render (with_np st l) in
  sleep (SLEEP_TIME cfg) st.

Definition fade_to_color (py : dialect) (cfg : config) (target : color)
  (frames : pynum) (st : engine) : result engine :=
  let np_cache := np st in
  let* r := py_range frames in
  for_each (fade_frame py cfg target frames np_cache) r st.

(** ** __init__ *)

(** A cell of the list [[()]*NUM_LIGHTS] the constructor starts from: the
    empty tuple until a colour is written to it. *)
Definition cell := option color.

(** The constructor in simulation mode.  It prints the fresh list, sets
    every cell to [BLACK], prints the buffer and sleeps one frame; the log
    starts with the second print.  It checks nothing about the
    configuration: the only way it can raise is [pprint] on an empty
    list. *)
Definition init (cfg : config) : result engine :=
  let n := Z.to_nat (NUM_LIGHTS cfg) in
  let l : list cell := repeat None n in
  let* _ := pprint l in
  let* l := set_neopixel_to_list l (repeat (Some BLACK) n) in
  let* _ := pprint l in
  sleep (SLEEP_TIME cfg)
        {| np := omap id l; log := [Render (omap id l)]; draws := 0%nat |}.

(** ** turn_on *)

(** Both ends of the strip get half of the pointer. *)
Definition seed (cfg : config) (l : list color) : result (list color) :=
  for_each (fun i l =>
              let* l := py_set l i CYAN in
              py_set l (-1 + (i * -1)) CYAN)
           (upto (ALEXA_HALF_POINTER_WIDTH cfg)) l.

(** The conditions of the sweep: [c == x and c' == y] evaluates the second
    comparison, and the index it needs, only when the first one holds. *)
Definition black_next_to_cyan (np_cache : list color) (i j : Z) : result bool :=
  let* a := py_get np_cache i in
  if bool_decide (a = BLACK)
  then (let* b := py_get np_cache j in OK (bool_decide (b = CYAN)))
  else OK false.

(** The body of [for index in range(NUM_LIGHTS/2)]. *)
Definition sweep_index (cfg : config) (np_cache : list color) (index : Z)
  (l : list color) : result (list color) :=
  let* front := black_next_to_cyan np_cache index (index - 1) in
  let* l := (if front : bool
             then (let* l := py_set l index CYAN in
                   py_set l (index - ALEXA_HALF_POINTER_WIDTH cfg) BLUE)
             else OK l) in
  let back_index := NUM_LIGHTS cfg - index - 1 in
  let* back := black_next_to_cyan np_cache back_index (back_index + 1) in
  if back : bool
  then (let* l := py_set l back_index CYAN in
        py_set l (back_index + ALEXA_HALF_POINTER_WIDTH cfg) BLUE)
  else OK l.

(** The body of [while BLACK in np_cache]: one frame.  At the head of
    every iteration [np_cache] is a copy of [self.np]. *)
Definition sweep_frame (py : dialect) (cfg : config) (st : engine)
  : result engine :=
  let np_cache := np st in
  let* half := py_div py (PInt (NUM_LIGHTS cfg)) (PInt 2) in
  let* r := py_range half in
  let* l := for_each (sweep_index cfg np_cache) r (np st) in
  let* st := render (with_np st l) in
  let* _ := pprint (np st) in
  sleep (SLEEP_TIME cfg) st.

(** The [while] loop; [None] when the fuel is used up first. *)
Fixpoint sweep_loop (py : dialect) (cfg : config) (fuel : nat) (st : engine)
  : option (result engine) :=
  if bool_decide (BLACK ∈ np st)
  then match fuel with
       | O => None
       | S fuel' =>
           match sweep_frame py cfg st with
           | OK st' => sweep_loop py cfg fuel' st'
           | Raise e => Some (Raise e)
           end
       end
  else Some (OK st).

Definition turn_on (py : dialect) (cfg : config) (fuel : nat) (st : engine)
  : option (result engine) :=
  match seed cfg (np st) with
  | Raise e => Some (Raise e)
  | OK l =>
      match sweep_loop py cfg fuel (with_np st l) with
      | Some (OK st') => Some (sleep (py_mul (SLEEP_TIME cfg) (PInt 32)) st')
      | r => r
      end
  end.

(** ** look_around *)

(** [urandom.getrandbits(1)]: the outcome of the draws is a parameter. *)
Definition getrandbits1 (bits : nat -> bool) (st : engine) : Z * engine :=
  (Z.b2z (bits (draws st)),
   {| np := np st; log := log st; draws := S (draws st) |}).

(** [(urandom.getrandbits(1) + 1) * ALEXA_LOOK_OFFSET_BASE] *)
Definition look_magnitude (cfg : config) (bit : Z) : Z :=
  (bit + 1) * ALEXA_LOOK_OFFSET_BASE cfg.

(** [if current_center > NUM_LIGHTS/2: offset *= -1] *)
Definition look_offset (py : dialect) (cfg : config) (current_center : Z)
  (offset : Z) : result Z :=
  let* half := py_div py (PInt (NUM_LIGHTS cfg)) (PInt 2) in
  OK (if py_gt (PInt current_center) half then offset * -1 else offset).

(** The two clamps, in the order of the source. *)
Definition clamp_center (cfg : config) (new_center : Z) : Z :=
  let new_center :=
    Z.min new_center (NUM_LIGHTS cfg - ALEXA_HALF_POINTER_WIDTH cfg) in
  Z.max new_center (ALEXA_HALF_POINTER_WIDTH cfg).

(** [i in range(a, b)] *)
Definition in_range (a b i : Z) : bool := (a <=? i) && (i <? b).

Definition window_color (new_center i : Z) : color :=
  if in_range (new_center - 2) (new_center + 2) i then CYAN else BLUE.

(** One repetition of the loop of [look_around]. *)
Definition look_once (py : dialect) (cfg : config) (bits : nat -> bool)
  (st : engine) : result engine :=
  let* first := py_index CYAN (np st) in
  let current_center := first + ALEXA_HALF_POINTER_WIDTH cfg in
  let '(bit, st) := getrandbits1 bits st in
  let* offset := look_offset py cfg current_center (look_magnitude cfg bit) in
  let new_center := clamp_center cfg (current_center + offset) in
  let* l := for_each (fun i l => py_set l i (window_color new_center i))
                     (upto (NUM_LIGHTS cfg)) (np st) in
  let* st := render (with_np st l) in
  sleep (py_mul (SLEEP_TIME cfg) (PInt 32)) st.

Definition look_around (py : dialect) (cfg : config) (bits : nat -> bool)
  (st : engine) : result engine :=
  let '(bit, st) := getrandbits1 bits st in
  let num_times_to_look := bit + 1 in
  for_each (fun _ st => look_once py cfg bits st) (upto num_times_to_look) st.

(** ** alternating_flash, alternating_pulse_fade, turn_off, play *)

Definition alternating_flash (st : engine) : result engine := OK st.

Definition alternating_pulse_fade (py : dialect) (cfg : config) (st : engine)
  : result engine :=
  let* st :=
    for_each (fun _ st =>
                let* st := fade_to_color py cfg CYAN
                             (py_mul (SLEEP_TIME cfg) (PInt 12)) st in
                fade_to_color py cfg BLUE
                  (py_mul (SLEEP_TIME cfg) (PInt 12)) st)
             (upto 3) st in
  sleep (py_mul (SLEEP_TIME cfg) (PInt 32)) st.

Definition turn_off (py : dialect) (cfg : config) (st : engine)
  : result engine :=
  fade_to_color py cfg BLACK (PInt 10) st.

Definition play (py : dialect) (cfg : config) (bits : nat -> bool)
  (fuel : nat) (st : engine) : option (result engine) :=
  match turn_on py cfg fuel st with
  | Some (OK st) =>
      Some (let* st := look_around py cfg bits st in
            let* st := alternating_flash st in
            let* st := alternating_pulse_fade py cfg st in
            turn_off py cfg st)
  | r => r
  end.

(** The configurations [unit_test] runs: the strip grows by two lights per
    round and [SLEEP_TIME] is the int [0].  [ALEXA_POINTER_WIDTH] is the only
    other global it changes, and the class never reads it. *)
Definition unit_test_config (num_lights pointer_width : Z) : config := {|
  NUM_LIGHTS := num_lights;
  ALEXA_ALTERNATING_FLASH_WIDTH := 2;
  ALEXA_POINTER_WIDTH := pointer_width;
  ALEXA_HALF_POINTER_WIDTH := 2;
  ALEXA_LOOK_OFFSET_BASE := 2;
  SLEEP_TIME := PInt 0
|}.

Definition dark (cfg : config) : engine :=
  {| np := repeat BLACK (Z.to_nat (NUM_LIGHTS cfg)); log := []; draws := 0%nat |}.

Definition frames_of (l : list event) : list (list color) :=
  omap (fun e => match e with Render f => Some f | Sleep _ => None end) l.

(** ** What pprint prints *)

(** A line of [pprint]: the first one is ['[' + str(x) + ','], the ones of
    the loop are [' ' + str(x) + ','] and the last one is
    [' ' + str(x) + ']']. *)
Inductive printed (A : Type) :=
| Opening (x : A)
| Inner (x : A)
| Closing (x : A).
Arguments Opening {A} x.
Arguments Inner {A} x.
Arguments Closing {A} x.

Definition shown_item {A} (p : printed A) : A :=
  match p with
  | Opening x => x
  | Inner x => x
  | Closing x => x
  end.

(** The lines [pprint(np)] prints, in order: [np[0]], then the loop over
    all indices that skips the first and the last one, then [np[-1]]. *)
Definition pprint_lines {A} (np : list A) : result (list (printed A)) :=
  let* first := py_get np 0 in
  let* lines :=
    for_each (fun i lines =>
                if (i =? 0) || (i =? Z.of_nat (length np) - 1)
                then OK lines
                else (let* x := py_get np i in OK (lines ++ [Inner x])))
             (upto (Z.of_nat (length np))) [Opening first] in
  let* last := py_get np (-1) in
  OK (lines ++ [Closing last]).

(** ** unit_test *)

(** One round of the loop of [unit_test] for each index of [rounds]: build
    an engine for the current globals, play, then add two lights, and two
    to the pointer width unless the index is a multiple of four.  The
    globals are the pair of [NUM_LIGHTS] and [ALEXA_POINTER_WIDTH];
    [bits i] is the random outcome of round [i]. *)
Fixpoint unit_test_rounds (py : dialect) (bits : Z -> nat -> bool)
  (fuel : nat) (rounds : list Z) (globals : Z * Z)
  : option (result (Z * Z)) :=
  match rounds with
  | [] => Some (OK globals)
  | i :: rounds' =>
      let cfg := unit_test_config (fst globals) (snd globals) in
      match init cfg with
      | Raise e => Some (Raise e)
      | OK npc =>
          match play py cfg (bits i) fuel npc with
          | Some (OK _) =>
              unit_test_rounds py bits fuel rounds'
                (fst globals + 2,
                 if i mod 4 =? 0 then snd globals else snd globals + 2)
          | Some (Raise e) => Some (Raise e)
          | None => None
          end
      end
  end.

(** [unit_test()]: 512 rounds from four lights and a pointer width of 2;
    the result is the globals it leaves. *)
Definition unit_test (py : dialect) (bits : Z -> nat -> bool) (fuel : nat)
  : option (result (Z * Z)) :=
  unit_test_rounds py bits fuel (upto 512) (4, 2).

(** ** Vocabulary of the properties *)

(** *** Frames of a fade *)

(** [math.trunc(d/F)] for ints [d] and [F]: rounding toward zero where
    [/] is true division, the floor where [/] is floor division. *)
Definition fade_quotient (py : dialect) (d F : Z) : Z :=
  match py with
  | Python2 => d / F
  | Python3 => Z.quot d F
  end.

Definition fade_value (py : dialect) (target start F k : Z) : Z :=
  start + fade_quotient py (target - start) F * (k + 1).

Definition fade_color (py : dialect) (target : color) (F k : Z)
  (start : color) : color :=
  let '(tr, tg, tb) := target in
  let '(sr, sg, sb) := start in
  (fade_value py tr sr F k, fade_value py tg sg F k, fade_value py tb sb F k).

(** The buffer rendered as frame [k] of a fade over [F] frames. *)
Definition fade_expected (py : dialect) (cfg : config) (target : color)
  (F : Z) (np_cache : list color) (k : Z) : list color :=
  if k =? F - 1 then repeat target (Z.to_nat (NUM_LIGHTS cfg))
  else map (fade_color py target F k) np_cache.

Definition fade_log (py : dialect) (cfg : config) (target : color) (F : Z)
  (np_cache : list color) (ks : list Z) : list event :=
  flat_map (fun k => [Render (fade_expected py cfg target F np_cache k);
                      Sleep (SLEEP_TIME cfg)]) ks.

Definition between (a b x : Z) : Prop := Z.min a b <= x <= Z.max a b.

Definition channel8 (x : Z) : Prop := 0 <= x <= 255.

Definition valid8 (c : color) : Prop :=
  let '(r, g, b) := c in channel8 r /\ channel8 g /\ channel8 b.

(** *** Strips and pointer windows *)

(** A strip of three lights with a pointer five lights wide: the length is
    odd, the pointer width is odd, and the strip is shorter than the
    pointer. *)
Definition odd_config : config := {|
  NUM_LIGHTS := 3;
  ALEXA_ALTERNATING_FLASH_WIDTH := 2;
  ALEXA_POINTER_WIDTH := 5;
  ALEXA_HALF_POINTER_WIDTH := 2;
  ALEXA_LOOK_OFFSET_BASE := 2;
  SLEEP_TIME := PFloat (1 # 24)
|}.

(** [l] shows the pointer as the four cells around [center], two below
    and two from [center] upward, and the background everywhere else. *)
Definition window_frame (cfg : config) (center : Z) (l : list color) : Prop :=
  length l = Z.to_nat (NUM_LIGHTS cfg) /\
  forall i : Z,
    0 <= i < NUM_LIGHTS cfg ->
    (center - 2 <= i < center + 2 -> l !! Z.to_nat i = Some CYAN) /\
    (~ center - 2 <= i < center + 2 -> l !! Z.to_nat i = Some BLUE).

(** The window is whole, inside the strip, and its centre is inside the
    range of the clamp. *)
Definition pointer_frame (cfg : config) (l : list color) : Prop :=
  exists center,
    ALEXA_HALF_POINTER_WIDTH cfg <= center
      <= NUM_LIGHTS cfg - ALEXA_HALF_POINTER_WIDTH cfg /\
    0 <= center - 2 /\ center + 2 <= NUM_LIGHTS cfg /\
    window_frame cfg center l.

(** After the power-on sweep of the default strip the pointer sits on the
    cells 8 to 11, centre 10. *)
Definition centered : engine :=
  {| np := repeat BLUE 8 ++ repeat CYAN 4 ++ repeat BLUE 8;
     log := []; draws := 0%nat |}.

(** A buffer given by the colour of each index. *)
Definition paint (n : Z) (f : Z -> color) : list color := map f (upto n).

Definition update (f : Z -> color) (i : Z) (v : color) : Z -> color :=
  fun j => if j =? i then v else f j.

(** After [j] rounds of seeding: [j] pointer cells at each end. *)
Definition seed_shape (cfg : config) (j i : Z) : color :=
  if (i <? j) || (NUM_LIGHTS cfg - j <=? i) then CYAN else BLACK.

(** After [t] frames of the sweep: [t] background cells at each end, then
    the two halves of the pointer, and the cells still off in the middle. *)
Definition sweep_shape (cfg : config) (t i : Z) : color :=
  if (i <? t) || (NUM_LIGHTS cfg - t <=? i) then BLUE
  else if (i <? t + ALEXA_HALF_POINTER_WIDTH cfg)
          || (NUM_LIGHTS cfg - t - ALEXA_HALF_POINTER_WIDTH cfg <=? i)
       then CYAN
       else BLACK.

(** The writes of the one pass of the loop of a frame that finds its two
    conditions true, in the order of the source. *)
Definition sweep_writes (cfg : config) (t : Z) (g : Z -> color) : Z -> color :=
  update
    (update
       (update
          (update g (t + ALEXA_HALF_POINTER_WIDTH cfg) CYAN)
          (t + ALEXA_HALF_POINTER_WIDTH cfg - ALEXA_HALF_POINTER_WIDTH cfg)
          BLUE)
       (NUM_LIGHTS cfg - (t + ALEXA_HALF_POINTER_WIDTH cfg) - 1) CYAN)
    (NUM_LIGHTS cfg - (t + ALEXA_HALF_POINTER_WIDTH cfg) - 1
     + ALEXA_HALF_POINTER_WIDTH cfg) BLUE.

(** Frame [t] of the sweep as five runs of cells: background, half a
    pointer, the cells still off, half a pointer, background. *)
Definition sweep_runs (cfg : config) (t : Z) : list color :=
  repeat BLUE (Z.to_nat t)
  ++ repeat CYAN (Z.to_nat (ALEXA_HALF_POINTER_WIDTH cfg))
  ++ repeat BLACK (Z.to_nat (NUM_LIGHTS cfg - 2 * t
                             - 2 * ALEXA_HALF_POINTER_WIDTH cfg))
  ++ repeat CYAN (Z.to_nat (ALEXA_HALF_POINTER_WIDTH cfg))
  ++ repeat BLUE (Z.to_nat t).

(** What [d] frames of the sweep add to the log, from frame number [t]. *)
Fixpoint sweep_log (cfg : config) (t : Z) (d : nat) : list event :=
  match d with
  | O => []
  | S d' =>
      Render (paint (NUM_LIGHTS cfg) (sweep_shape cfg (t + 1)))
      :: Sleep (SLEEP_TIME cfg) :: sweep_log cfg (t + 1) d'
  end.

(** Six lights and a pointer of width zero. *)
Definition pointerless_config : config := {|
  NUM_LIGHTS := 6;
  ALEXA_ALTERNATING_FLASH_WIDTH := 2;
  ALEXA_POINTER_WIDTH := 0;
  ALEXA_HALF_POINTER_WIDTH := 0;
  ALEXA_LOOK_OFFSET_BASE := 2;
  SLEEP_TIME := PInt 0
|}.

(** The hold after a frame of [look_around]. *)
Definition look_hold (cfg : config) (f : list color) : list event :=
  [Render f; Sleep (py_mul (SLEEP_TIME cfg) (PInt 32))].

(** The globals after the rounds [rounds] of [unit_test], if every round
    returns. *)
Fixpoint unit_test_globals (rounds : list Z) (globals : Z * Z) : Z * Z :=
  match rounds with
  | [] => globals
  | i :: rounds' =>
      unit_test_globals rounds'
        (fst globals + 2,
         if i mod 4 =? 0 then snd globals else snd globals + 2)
  end.

(** The default strip after seeding. *)
Definition seeded : engine :=
  with_np (dark default_config)
          (repeat CYAN 2 ++ repeat BLACK 16 ++ repeat CYAN 2).

(** * Properties *)

(** ** Lists, indices and loops *)

Lemma py_norm_nat (len k : nat) :
  (k < len)%nat -> py_norm len (Z.of_nat k) = OK k.
Proof.
  intros Hk. unfold py_norm.
  replace ((0 <=? Z.of_nat k) && (Z.of_nat k <? Z.of_nat len)) with true.
  - by rewrite Nat2Z.id.
  - symmetry. apply andb_true_intro. split; [apply Z.leb_le | apply Z.ltb_lt]; lia.
Qed.

Lemma py_norm_pos (len : nat) (i : Z) :
  0 <= i < Z.of_nat len -> py_norm len i = OK (Z.to_nat i).
Proof.
  intros Hi. rewrite <- (Z2Nat.id i) at 1 by lia. apply py_norm_nat. lia.
Qed.

Lemma py_get_nat {A} (l : list A) (k : nat) (x : A) :
  l !! k = Some x -> py_get l (Z.of_nat k) = OK x.
Proof.
  intros Hx. unfold py_get.
  rewrite py_norm_nat by (eapply lookup_lt_Some; eauto).
  simpl. by rewrite Hx.
Qed.

Lemma py_get_pos {A} (l : list A) (i : Z) (x : A) :
  0 <= i -> l !! Z.to_nat i = Some x -> py_get l i = OK x.
Proof.
  intros Hi Hx. rewrite <- (Z2Nat.id i) by lia. by apply py_get_nat.
Qed.

Lemma py_set_nat {A} (l : list A) (k : nat) (x : A) :
  (k < length l)%nat -> py_set l (Z.of_nat k) x = OK (<[k:=x]> l).
Proof. intros Hk. unfold py_set. by rewrite py_norm_nat. Qed.

Lemma py_set_pos {A} (l : list A) (i : Z) (x : A) :
  0 <= i < Z.of_nat (length l) -> py_set l i x = OK (<[Z.to_nat i:=x]> l).
Proof. intros Hi. unfold py_set. by rewrite py_norm_pos. Qed.

Lemma for_each_app {I S} (body : I -> S -> result S) (l1 l2 : list I) (s : S) :
  for_each body (l1 ++ l2) s
  = let* s' := for_each body l1 s in for_each body l2 s'.
Proof.
  revert s. induction l1 as [|i l1 IH]; intros s; simpl; [done|].
  destruct (body i s); simpl; [apply IH | done].
Qed.

Lemma upto_nat_S (n : nat) :
  map Z.of_nat (seq 0 (S n)) = map Z.of_nat (seq 0 n) ++ [Z.of_nat n].
Proof. by rewrite seq_S, map_app. Qed.

Lemma upto_S (n : Z) : 0 <= n -> upto (n + 1) = upto n ++ [n].
Proof.
  intros Hn. unfold upto.
  replace (Z.to_nat (n + 1)) with (S (Z.to_nat n)) by lia.
  rewrite upto_nat_S. by rewrite Z2Nat.id.
Qed.

Lemma upto_length (n : Z) : length (upto n) = Z.to_nat n.
Proof. unfold upto. by rewrite length_map, length_seq. Qed.

Lemma upto_lookup (n : Z) (k : nat) :
  (k < Z.to_nat n)%nat -> upto n !! k = Some (Z.of_nat k).
Proof.
  intros Hk. unfold upto. rewrite list_lookup_fmap.
  rewrite lookup_seq_lt by done. done.
Qed.

Lemma upto_bounds (n k : Z) : k ∈ upto n -> 0 <= k < n.
Proof.
  unfold upto. intros Hk. apply list_elem_of_fmap in Hk as (j & -> & Hj).
  apply elem_of_seq in Hj. lia.
Qed.

Lemma default_last_cons {A} (d d' x : A) (l : list A) :
  default d (last (x :: l)) = default d' (last (x :: l)).
Proof.
  destruct (last (x :: l)) eqn:Hlast; [done|]. by apply last_None in Hlast.
Qed.

(** A loop that writes [vals[k]] at every position [k] it visits. *)
Lemma for_each_overwrite {A} (vals : list A)
  (body : Z -> list A -> result (list A)) (n : nat) (l : list A) :
  (forall (k : nat) (x : A) (l' : list A),
      vals !! k = Some x -> (k < length l')%nat ->
      body (Z.of_nat k) l' = OK (<[k:=x]> l')) ->
  (n <= length vals)%nat -> (n <= length l)%nat ->
  for_each body (map Z.of_nat (seq 0 n)) l = OK (take n vals ++ drop n l).
Proof.
  intros Hbody. induction n as [|n IH]; intros Hv Hl.
  - simpl. by rewrite drop_0.
  - rewrite upto_nat_S, for_each_app, IH by lia. simpl.
    destruct (lookup_lt_is_Some_2 vals n) as [x Hx]; [lia|].
    destruct (lookup_lt_is_Some_2 l n) as [y Hy]; [lia|].
    rewrite (Hbody n x) by (done || (rewrite length_app, length_take, length_drop; lia)).
    f_equal. rewrite insert_app_r_alt by (rewrite length_take; lia).
    rewrite length_take. replace (n - n `min` length vals)%nat with 0%nat by lia.
    rewrite (drop_S l y n Hy). simpl.
    rewrite (take_S_r vals n x Hx). by rewrite <- app_assoc.
Qed.

Lemma set_neopixel_to_list_ok {A} (l input_list : list A) :
  (length input_list <= length l)%nat ->
  set_neopixel_to_list l input_list
  = OK (input_list ++ drop (length input_list) l).
Proof.
  intros Hlen. unfold set_neopixel_to_list, upto. rewrite Nat2Z.id.
  rewrite (for_each_overwrite input_list); [by rewrite firstn_all | | lia | lia].
  intros k x l' Hx Hk. rewrite (py_get_nat _ _ _ Hx). simpl.
  by apply py_set_nat.
Qed.

Lemma set_neopixel_to_list_same_length {A} (l input_list : list A) :
  length input_list = length l ->
  set_neopixel_to_list l input_list = OK input_list.
Proof.
  intros Hlen. rewrite set_neopixel_to_list_ok by lia.
  rewrite Hlen, drop_all. by rewrite app_nil_r.
Qed.

(** ** Fading *)

(** On MicroPython and Python 3 the quotient of two ints is a float and
    [math.trunc] cuts its fraction off: together they are division
    rounding toward zero. *)
Lemma math_trunc_truediv (x y : Z) :
  y <> 0 -> math_trunc (PFloat (inject_Z x / inject_Z y)) = Z.quot x y.
Proof.
  intros Hy. destruct y as [|p|p]; [done| |]; simpl.
  - by rewrite Z.mul_1_r.
  - rewrite <- (Z.quot_opp_opp x (Z.neg p)) by done.
    simpl. f_equal. lia.
Qed.

Lemma fade_channel_int (py : dialect) (target start F k : Z) :
  F <> 0 ->
  fade_channel py target start (PInt F) k = OK (fade_value py target start F k).
Proof.
  intros HF. unfold fade_channel, py_div, fade_value.
  destruct (Z.eqb_spec F 0) as [|_]; [done|].
  destruct py; cbn [bind fade_quotient]; [done|].
  by rewrite math_trunc_truediv.
Qed.

Lemma fade_pixel_int (py : dialect) (target start : color) (F k : Z) :
  F <> 0 ->
  fade_pixel py target (PInt F) k start = OK (fade_color py target F k start).
Proof.
  intros HF. destruct target as [[tr tg] tb], start as [[sr sg] sb].
  unfold fade_pixel. by rewrite !fade_channel_int.
Qed.

Lemma fade_buffer_inner (py : dialect) (cfg : config) (target : color)
  (F k : Z) (np_cache l : list color) :
  F <> 0 -> k <> F - 1 -> length l = length np_cache ->
  fade_buffer py cfg target (PInt F) np_cache k l
  = OK (map (fade_color py target F k) np_cache).
Proof.
  intros HF Hk Hlen. unfold fade_buffer. simpl.
  destruct (Z.eqb_spec k (F - 1)) as [|_]; [done|].
  unfold upto. rewrite Nat2Z.id.
  rewrite (for_each_overwrite (map (fade_color py target F k) np_cache)).
  - rewrite <- Hlen, drop_all, app_nil_r.
    rewrite firstn_all2; [done | rewrite length_map; lia].
  - intros j x l' Hx Hj. rewrite list_lookup_fmap in Hx.
    destruct (np_cache !! j) as [s|] eqn:Hs; [|done].
    injection Hx as <-. rewrite (py_get_nat _ _ _ Hs). cbn [bind].
    rewrite fade_pixel_int by done. cbn [bind]. by apply py_set_nat.
  - by rewrite length_map.
  - lia.
Qed.

Lemma fade_buffer_last (py : dialect) (cfg : config) (target : color) (F : Z)
  (np_cache l : list color) :
  length l = Z.to_nat (NUM_LIGHTS cfg) ->
  fade_buffer py cfg target (PInt F) np_cache (F - 1) l
  = OK (repeat target (Z.to_nat (NUM_LIGHTS cfg))).
Proof.
  intros Hlen. unfold fade_buffer. simpl. rewrite Z.eqb_refl.
  apply set_neopixel_to_list_same_length. by rewrite repeat_length.
Qed.

Lemma fade_expected_length (py : dialect) (cfg : config) (target : color) (F k : Z)
  (np_cache : list color) :
  length np_cache = Z.to_nat (NUM_LIGHTS cfg) ->
  length (fade_expected py cfg target F np_cache k) = Z.to_nat (NUM_LIGHTS cfg).
Proof.
  intros Hlen. unfold fade_expected.
  destruct (k =? F - 1); [apply repeat_length | by rewrite length_map].
Qed.

Lemma fade_buffer_int (py : dialect) (cfg : config) (target : color) (F k : Z)
  (np_cache l : list color) :
  F <> 0 ->
  length np_cache = Z.to_nat (NUM_LIGHTS cfg) ->
  length l = Z.to_nat (NUM_LIGHTS cfg) ->
  fade_buffer py cfg target (PInt F) np_cache k l
  = OK (fade_expected py cfg target F np_cache k).
Proof.
  intros HF Hc Hl. unfold fade_expected.
  destruct (Z.eqb_spec k (F - 1)) as [->|Hk].
  - by apply fade_buffer_last.
  - apply fade_buffer_inner; [done | done | lia].
Qed.

Lemma render_ok (st : engine) :
  (0 < length (np st))%nat -> render st = OK (emit st (Render (np st))).
Proof.
  intros Hlen. unfold render. destruct (np st); [simpl in Hlen; lia | done].
Qed.

Lemma fade_frame_int (py : dialect) (cfg : config) (target : color) (F k : Z)
  (np_cache : list color) (st : engine) :
  F <> 0 -> 0 < NUM_LIGHTS cfg ->
  length np_cache = Z.to_nat (NUM_LIGHTS cfg) ->
  length (np st) = Z.to_nat (NUM_LIGHTS cfg) ->
  fade_frame py cfg target (PInt F) np_cache k st
  = OK {| np := fade_expected py cfg target F np_cache k;
          log := log st ++ fade_log py cfg target F np_cache [k];
          draws := draws st |}.
Proof.
  intros HF HN Hc Hl. unfold fade_frame.
  rewrite fade_buffer_int by done. simpl.
  rewrite render_ok by (simpl; rewrite fade_expected_length by done; lia).
  simpl. unfold sleep, emit. simpl. by rewrite <- app_assoc.
Qed.

(** Running the frames [ks] one after the other. *)
Lemma fade_frames_int (py : dialect) (cfg : config) (target : color) (F : Z)
  (np_cache : list color) (ks : list Z) (st : engine) :
  F <> 0 -> 0 < NUM_LIGHTS cfg ->
  length np_cache = Z.to_nat (NUM_LIGHTS cfg) ->
  length (np st) = Z.to_nat (NUM_LIGHTS cfg) ->
  for_each (fade_frame py cfg target (PInt F) np_cache) ks st
  = OK {| np := default (np st)
                  (last (map (fade_expected py cfg target F np_cache) ks));
          log := log st ++ fade_log py cfg target F np_cache ks;
          draws := draws st |}.
Proof.
  intros HF HN Hc. revert st. induction ks as [|k ks IH]; intros st Hl.
  - simpl. rewrite app_nil_r. by destruct st.
  - cbn [for_each]. rewrite fade_frame_int by done. cbn [bind].
    rewrite IH by (simpl; by apply fade_expected_length).
    cbn [np log draws]. f_equal. f_equal.
    + destruct ks as [|k' ks]; [done|]. rewrite !map_cons, last_cons_cons.
      apply default_last_cons.
    + rewrite <- app_assoc. done.
Qed.

(** The whole fade, for a positive number of frames. *)
Lemma fade_to_color_int (py : dialect) (cfg : config) (target : color) (F : Z) (st : engine) :
  1 <= F -> 0 < NUM_LIGHTS cfg ->
  length (np st) = Z.to_nat (NUM_LIGHTS cfg) ->
  fade_to_color py cfg target (PInt F) st
  = OK {| np := repeat target (Z.to_nat (NUM_LIGHTS cfg));
          log := log st ++ fade_log py cfg target F (np st) (upto F);
          draws := draws st |}.
Proof.
  intros HF HN Hl. unfold fade_to_color. simpl.
  rewrite fade_frames_int by (done || lia). do 2 f_equal.
  replace (upto F) with (upto (F - 1) ++ [F - 1])
    by (rewrite <- upto_S by lia; f_equal; lia).
  rewrite map_app, last_app. simpl.
  unfold fade_expected. by rewrite Z.eqb_refl.
Qed.

(** No frame at all when the count is not positive. *)
Lemma fade_to_color_no_frame (py : dialect) (cfg : config) (target : color)
  (F : Z) (st : engine) :
  F <= 0 -> fade_to_color py cfg target (PInt F) st = OK st.
Proof.
  intros HF. unfold fade_to_color, py_range, upto. simpl.
  by replace (Z.to_nat F) with 0%nat by lia.
Qed.

(** A float as frame count makes [range] raise, on every interpreter. *)
Lemma fade_to_color_float (py : dialect) (cfg : config) (target : color)
  (q : Q) (st : engine) :
  fade_to_color py cfg target (PFloat q) st = Raise TypeError.
Proof. done. Qed.

Lemma frames_of_app (l1 l2 : list event) :
  frames_of (l1 ++ l2) = frames_of l1 ++ frames_of l2.
Proof. apply omap_app. Qed.

Lemma frames_of_fade_log (py : dialect) (cfg : config) (target : color)
  (F : Z) (np_cache : list color) (ks : list Z) :
  frames_of (fade_log py cfg target F np_cache ks)
  = map (fade_expected py cfg target F np_cache) ks.
Proof.
  induction ks as [|k ks IH]; [done|].
  unfold fade_log in *. simpl. unfold frames_of in *. simpl. by rewrite IH.
Qed.

Lemma fade_to_color_frames (py : dialect) (cfg : config) (target : color)
  (F : Z) (st st' : engine) :
  1 <= F -> 0 < NUM_LIGHTS cfg ->
  length (np st) = Z.to_nat (NUM_LIGHTS cfg) ->
  fade_to_color py cfg target (PInt F) st = OK st' ->
  frames_of (log st')
  = frames_of (log st) ++ map (fade_expected py cfg target F (np st)) (upto F).
Proof.
  intros HF HN Hl Hrun. rewrite fade_to_color_int in Hrun by done.
  injection Hrun as <-. simpl. by rewrite frames_of_app, frames_of_fade_log.
Qed.

(** Frame [k] of the fade, counted from the frames rendered before it. *)
Lemma fade_to_color_frame (py : dialect) (cfg : config) (target : color)
  (F k : Z) (st st' : engine) :
  0 <= k < F -> 0 < NUM_LIGHTS cfg ->
  length (np st) = Z.to_nat (NUM_LIGHTS cfg) ->
  fade_to_color py cfg target (PInt F) st = OK st' ->
  frames_of (log st') !! (length (frames_of (log st)) + Z.to_nat k)%nat
  = Some (fade_expected py cfg target F (np st) k).
Proof.
  intros Hk HN Hl Hrun.
  rewrite (fade_to_color_frames py cfg target F st st') by (done || lia).
  rewrite lookup_app_r by lia.
  replace (length (frames_of (log st)) + Z.to_nat k
           - length (frames_of (log st)))%nat with (Z.to_nat k) by lia.
  rewrite list_lookup_fmap, upto_lookup by lia. simpl.
  by rewrite Z2Nat.id by lia.
Qed.

(** Truncation toward zero never carries an intermediate frame past the
    target: [F] steps of [trunc(d/F)] are at most [d] in magnitude. *)
Lemma fade_value_between (target start F k : Z) :
  1 <= F -> 0 <= k < F - 1 ->
  between start target (fade_value Python3 target start F k).
Proof.
  intros HF Hk. unfold between, fade_value, fade_quotient.
  pose proof (Z.quot_rem' (target - start) F) as Hqr.
  destruct (Z.le_gt_cases 0 (target - start)) as [Hd|Hd].
  - pose proof (Z.rem_bound_pos (target - start) F Hd ltac:(lia)).
    assert (0 <= (target - start) ÷ F) by nia.
    nia.
  - pose proof (Z.rem_bound_pos (- (target - start)) F ltac:(lia) ltac:(lia))
      as Hr.
    rewrite Z.rem_opp_l' in Hr.
    assert ((target - start) ÷ F <= 0) by nia.
    nia.
Qed.

(** C1 (as amended).  A fade over a positive int number of frames [F], on
    a non-empty strip whose buffer has the configured length, renders [F]
    frames, the last of them being the buffer it leaves, and leaves every
    index of the buffer exactly equal to the target colour.  This holds on
    every interpreter. *)
Theorem fade_to_color_reaches_target (py : dialect) (cfg : config)
  (target : color) (F : Z) (st : engine) :
  1 <= F -> 0 < NUM_LIGHTS cfg ->
  length (np st) = Z.to_nat (NUM_LIGHTS cfg) ->
  exists st',
    fade_to_color py cfg target (PInt F) st = OK st' /\
    length (frames_of (log st'))
    = (length (frames_of (log st)) + Z.to_nat F)%nat /\
    last (frames_of (log st')) = Some (np st') /\
    length (np st') = length (np st) /\
    forall (i : nat) (c : color), np st' !! i = Some c -> c = target.
Proof.
  intros HF HN Hl. eexists. split; [by apply fade_to_color_int|].
  cbn [np log]. rewrite frames_of_app, frames_of_fade_log.
  repeat split.
  - by rewrite length_app, length_map, upto_length.
  - replace (upto F) with (upto (F - 1) ++ [F - 1])
      by (rewrite <- upto_S by lia; f_equal; lia).
    rewrite map_app, app_assoc, last_app. simpl.
    unfold fade_expected. by rewrite Z.eqb_refl.
  - by rewrite repeat_length.
  - intros i c Hc. apply list_elem_of_lookup_2 in Hc.
    by apply list_elem_of_In, repeat_spec in Hc.
Qed.

Lemma fade_to_color_reaches_target_witness :
  exists st',
    fade_to_color Python3 default_config CYAN (PInt 12) (dark default_config)
    = OK st' /\
    length (frames_of (log st'))
    = (length (frames_of (log (dark default_config))) + Z.to_nat 12)%nat /\
    last (frames_of (log st')) = Some (np st') /\
    length (np st') = length (np (dark default_config)) /\
    forall (i : nat) (c : color), np st' !! i = Some c -> c = CYAN.
Proof.
  apply (fade_to_color_reaches_target Python3 default_config CYAN 12
           (dark default_config)); [lia | reflexivity | reflexivity].
Defined.

(** C1 as stated fails for a frame count of zero, which [unit_test] really
    passes ([SLEEP_TIME*12] with [SLEEP_TIME = 0]): no frame is rendered
    and the buffer keeps its colours. *)
Lemma fade_to_color_zero_frames_counterexample :
  exists st',
    fade_to_color Python3 default_config CYAN (PInt 0) (dark default_config)
    = OK st' /\
    frames_of (log st') = [] /\
    np st' !! 0%nat = Some BLACK /\ BLACK <> CYAN.
Proof. exists (dark default_config). repeat split; done. Qed.

(** C2.  Where [/] is true division (MicroPython, Python 3), frame [k] of
    a fade over [F] frames, for [k < F-1], shows every pixel with each
    channel at [start + trunc((target - start)/F) * (k+1)]: [start] is the
    channel when the fade was called, the quotient is rounded toward zero
    ([Z.quot]) and only then multiplied. *)
Theorem fade_to_color_intermediate_frame (cfg : config) (tr tg tb F k : Z)
  (st : engine) :
  0 < NUM_LIGHTS cfg ->
  length (np st) = Z.to_nat (NUM_LIGHTS cfg) ->
  0 <= k < F - 1 ->
  exists st',
    fade_to_color Python3 cfg (tr, tg, tb) (PInt F) st = OK st' /\
    frames_of (log st') !! (length (frames_of (log st)) + Z.to_nat k)%nat
    = Some (map (fun '(sr, sg, sb) =>
                   (sr + Z.quot (tr - sr) F * (k + 1),
                    sg + Z.quot (tg - sg) F * (k + 1),
                    sb + Z.quot (tb - sb) F * (k + 1)))
                (np st)).
Proof.
  intros HN Hl Hk.
  assert (HF : 1 <= F) by lia. assert (Hk' : 0 <= k < F) by lia.
  eexists. split; [by apply fade_to_color_int|].
  etrans; [exact (fade_to_color_frame Python3 cfg (tr, tg, tb) F k st _
                    Hk' HN Hl (fade_to_color_int _ _ _ _ _ HF HN Hl))|].
  unfold fade_expected. destruct (Z.eqb_spec k (F - 1)) as [|_]; [lia|].
  apply (f_equal Some), map_ext. by intros [[sr sg] sb].
Qed.

Lemma fade_to_color_intermediate_frame_witness :
  exists st',
    fade_to_color Python3 default_config (0, 5, 40) (PInt 10)
      (dark default_config) = OK st' /\
    frames_of (log st')
      !! (length (frames_of (log (dark default_config))) + Z.to_nat 0)%nat
    = Some (map (fun '(sr, sg, sb) =>
                   (sr + Z.quot (0 - sr) 10 * (0 + 1),
                    sg + Z.quot (5 - sg) 10 * (0 + 1),
                    sb + Z.quot (40 - sb) 10 * (0 + 1)))
                (np (dark default_config))).
Proof.
  apply (fade_to_color_intermediate_frame default_config 0 5 40 10 0
           (dark default_config)); [reflexivity | reflexivity | lia].
Defined.

(** The scenario of the specification: fading from black to (0, 5, 40)
    over 10 frames, frame 0 has green 0 and blue 4, the last frame is the
    target. *)
Example fade_black_to_blue :
  (fun r => match r with
            | OK st => (frames_of (log st) !! 0%nat, frames_of (log st) !! 9%nat)
            | Raise _ => (None, None)
            end)
    (fade_to_color Python3 default_config BLUE (PInt 10) (dark default_config))
  = (Some (repeat (0, 0, 4) 20), Some (repeat (0, 5, 40) 20)).
Proof. vm_compute. reflexivity. Qed.

(** C10.  Where [/] is true division, every channel of every pixel of
    every frame but the last lies between the channel's starting value and
    its target value; so the colours in between are 8-bit colours when the
    starting colour and the target are. *)
Theorem fade_to_color_no_overshoot (cfg : config) (tr tg tb F k : Z)
  (st : engine) :
  1 <= F -> 0 < NUM_LIGHTS cfg ->
  length (np st) = Z.to_nat (NUM_LIGHTS cfg) ->
  0 <= k < F - 1 ->
  exists st' frame,
    fade_to_color Python3 cfg (tr, tg, tb) (PInt F) st = OK st' /\
    frames_of (log st') !! (length (frames_of (log st)) + Z.to_nat k)%nat
    = Some frame /\
    length frame = length (np st) /\
    forall (i : nat) (sr sg sb r g b : Z),
      np st !! i = Some (sr, sg, sb) ->
      frame !! i = Some (r, g, b) ->
      (between sr tr r /\ between sg tg g /\ between sb tb b) /\
      (valid8 (sr, sg, sb) -> valid8 (tr, tg, tb) -> valid8 (r, g, b)).
Proof.
  intros HF HN Hl Hk.
  assert (Hk' : 0 <= k < F) by lia.
  eexists. eexists. split; [by apply fade_to_color_int|].
  split; [exact (fade_to_color_frame Python3 cfg (tr, tg, tb) F k st _
                  Hk' HN Hl (fade_to_color_int _ _ _ _ _ HF HN Hl))|].
  unfold fade_expected. destruct (Z.eqb_spec k (F - 1)) as [|_]; [lia|].
  split; [by rewrite length_map|].
  intros i sr sg sb r g b Hs Hc.
  apply list_lookup_fmap_Some_1 in Hc as (s & Hc & Hs').
  assert (s = (sr, sg, sb)) as -> by congruence.
  simpl in Hc. injection Hc as -> -> ->.
  pose proof (fade_value_between tr sr F k HF Hk) as Hr.
  pose proof (fade_value_between tg sg F k HF Hk) as Hg.
  pose proof (fade_value_between tb sb F k HF Hk) as Hb.
  split; [done|].
  unfold valid8, channel8, between in *. lia.
Qed.

Lemma fade_to_color_no_overshoot_witness :
  exists st' frame,
    fade_to_color Python3 default_config (0, 5, 40) (PInt 10)
      (dark default_config) = OK st' /\
    frames_of (log st')
      !! (length (frames_of (log (dark default_config))) + Z.to_nat 3)%nat
    = Some frame /\
    length frame = length (np (dark default_config)) /\
    forall (i : nat) (sr sg sb r g b : Z),
      np (dark default_config) !! i = Some (sr, sg, sb) ->
      frame !! i = Some (r, g, b) ->
      (between sr 0 r /\ between sg 5 g /\ between sb 40 b) /\
      (valid8 (sr, sg, sb) -> valid8 (0, 5, 40) -> valid8 (r, g, b)).
Proof.
  apply (fade_to_color_no_overshoot default_config 0 5 40 10 3
           (dark default_config)); [lia | reflexivity | reflexivity | lia].
Defined.

(** Where [/] is floor division (Python 2) the quotient of a negative
    difference is rounded down, and a fade toward a darker colour leaves
    the interval: one step below the start over 10 frames gives -8 on
    frame 8. *)
Remark fade_channel_floor_overshoots :
  fade_channel Python2 0 1 (PInt 10) 8 = OK (-8) /\
  fade_channel Python3 0 1 (PInt 10) 8 = OK 1.
Proof. split; reflexivity. Qed.

(** ** The constructor *)

Lemma omap_id_repeat_Some {A} (x : A) (n : nat) :
  omap id (repeat (Some x) n) = repeat x n.
Proof. induction n as [|n IH]; [done|]. simpl. by f_equal. Qed.

Lemma pprint_ok {A} (l : list A) : (0 < length l)%nat -> pprint l = OK tt.
Proof. destruct l; simpl; [lia | done]. Qed.

Lemma init_ok (cfg : config) :
  0 < NUM_LIGHTS cfg ->
  init cfg
  = OK {| np := repeat BLACK (Z.to_nat (NUM_LIGHTS cfg));
          log := [Render (repeat BLACK (Z.to_nat (NUM_LIGHTS cfg)));
                  Sleep (SLEEP_TIME cfg)];
          draws := 0%nat |}.
Proof.
  intros HN. unfold init.
  rewrite pprint_ok by (rewrite repeat_length; lia). cbn [bind].
  rewrite set_neopixel_to_list_same_length by (by rewrite !repeat_length).
  cbn [bind]. rewrite pprint_ok by (rewrite repeat_length; lia). cbn [bind].
  by rewrite omap_id_repeat_Some.
Qed.

(** Without a light the constructor does fail, but in [pprint], on the
    empty list, and with an [IndexError]. *)
Lemma init_no_light (cfg : config) :
  NUM_LIGHTS cfg <= 0 -> init cfg = Raise IndexError.
Proof.
  intros HN. unfold init.
  by replace (Z.to_nat (NUM_LIGHTS cfg)) with 0%nat by lia.
Qed.

(** C9 (as amended).  The constructor checks nothing about the
    configuration: with at least one light it succeeds, whatever the parity
    of the strip length and whatever the pointer widths, and leaves a
    buffer of [NUM_LIGHTS] cells that are all off, rendered once. *)
Theorem init_accepts_every_configuration (cfg : config) :
  0 < NUM_LIGHTS cfg ->
  exists st,
    init cfg = OK st /\
    np st = repeat BLACK (Z.to_nat (NUM_LIGHTS cfg)) /\
    frames_of (log st) = [repeat BLACK (Z.to_nat (NUM_LIGHTS cfg))].
Proof. intros HN. eexists. split; [by apply init_ok | done]. Qed.

Lemma init_accepts_every_configuration_witness :
  exists st,
    init odd_config = OK st /\
    np st = repeat BLACK (Z.to_nat (NUM_LIGHTS odd_config)) /\
    frames_of (log st) = [repeat BLACK (Z.to_nat (NUM_LIGHTS odd_config))].
Proof. apply (init_accepts_every_configuration odd_config). reflexivity. Defined.

(** C9 as stated fails: the configuration above is invalid in all three
    ways and the constructor returns an engine. *)
Lemma init_invalid_configuration_counterexample :
  Z.odd (NUM_LIGHTS odd_config) = true /\
  Z.odd (ALEXA_POINTER_WIDTH odd_config) = true /\
  NUM_LIGHTS odd_config < ALEXA_POINTER_WIDTH odd_config /\
  init odd_config
  = OK {| np := [BLACK; BLACK; BLACK];
          log := [Render [BLACK; BLACK; BLACK]; Sleep (PFloat (1 # 24))];
          draws := 0%nat |}.
Proof. repeat split. Qed.

(** ** Looking around *)

(** The comparison [current_center > NUM_LIGHTS/2] gives the same answer
    on every interpreter: the centre is strictly past the middle. *)
Lemma look_offset_spec (py : dialect) (cfg : config) (current_center offset : Z) :
  look_offset py cfg current_center offset
  = OK (if NUM_LIGHTS cfg <? 2 * current_center then offset * -1 else offset).
Proof.
  unfold look_offset, py_div. simpl. destruct py; cbn [bind py_gt to_Q].
  - f_equal.
    destruct (Z.ltb_spec (NUM_LIGHTS cfg `div` 2) current_center),
             (Z.ltb_spec (NUM_LIGHTS cfg) (2 * current_center));
      try done; pose proof (Z.div_mod (NUM_LIGHTS cfg) 2 ltac:(lia));
      pose proof (Z.mod_pos_bound (NUM_LIGHTS cfg) 2 ltac:(lia)); lia.
  - f_equal. unfold Qle_bool. simpl.
    change (Z.pos (1 * 2)) with 2.
    destruct (Z.leb_spec (current_center * 2) (NUM_LIGHTS cfg * 1 * 1)),
             (Z.ltb_spec (NUM_LIGHTS cfg) (2 * current_center));
      try done; lia.
Qed.

(** C6 (as amended).  The offset of a repetition has magnitude
    [ALEXA_LOOK_OFFSET_BASE] or [2*ALEXA_LOOK_OFFSET_BASE], chosen by the
    one random bit drawn for it, and keeps that magnitude when its sign is
    chosen: 2 or 4 with the base of 2 of the module. *)
Theorem look_magnitude_one_or_two_bases (py : dialect) (cfg : config)
  (current_center : Z) (bit : bool) :
  look_magnitude cfg (Z.b2z bit)
  = (if bit then 2 else 1) * ALEXA_LOOK_OFFSET_BASE cfg /\
  look_magnitude default_config (Z.b2z bit) = (if bit then 4 else 2) /\
  exists offset,
    look_offset py cfg current_center (look_magnitude cfg (Z.b2z bit))
    = OK offset /\
    Z.abs offset = (if bit then 2 else 1) * Z.abs (ALEXA_LOOK_OFFSET_BASE cfg).
Proof.
  split; [by destruct bit|]. split; [by destruct bit|].
  eexists. split; [apply look_offset_spec|].
  unfold look_magnitude.
  destruct bit, (NUM_LIGHTS cfg <? 2 * current_center); simpl; lia.
Qed.

(** C6 as stated fails: with the bit 0 the magnitude is 2, which is
    neither 4 nor 8. *)
Lemma look_magnitude_counterexample :
  ~ (forall bit : bool,
       look_magnitude default_config (Z.b2z bit) = 4 \/
       look_magnitude default_config (Z.b2z bit) = 8).
Proof. intros H. destruct (H false) as [H'|H']; discriminate H'. Qed.

(** C7 (as amended).  With 20 lights and the centre at 10, the comparison
    [current_center > NUM_LIGHTS/2] is false and the offset keeps its
    positive sign, on every interpreter and for both magnitudes. *)
Theorem look_offset_midpoint_positive (py : dialect) (bit : bool) :
  look_offset py default_config 10 (look_magnitude default_config (Z.b2z bit))
  = OK (look_magnitude default_config (Z.b2z bit)) /\
  0 < look_magnitude default_config (Z.b2z bit).
Proof. by destruct py, bit. Qed.

(** C7 as stated fails: at the midpoint no offset is negative. *)
Lemma look_offset_midpoint_counterexample :
  ~ (exists (bit : bool) (offset : Z),
       look_offset Python3 default_config 10
         (look_magnitude default_config (Z.b2z bit)) = OK offset /\
       offset < 0).
Proof.
  intros (bit & offset & Hoff & Hneg).
  destruct bit; vm_compute in Hoff; injection Hoff as <-; lia.
Qed.

Lemma py_index_elem_of {A} `{EqDecision A} (x : A) (l : list A) :
  x ∈ l ->
  exists k, py_index x l = OK k /\ 0 <= k < Z.of_nat (length l).
Proof.
  induction l as [|y l IH]; intros Hin; [by apply elem_of_nil in Hin|].
  simpl. case_bool_decide as Hy.
  - exists 0. split; [done | lia].
  - apply elem_of_cons in Hin as [->|Hin]; [done|].
    destruct (IH Hin) as (k & -> & Hk). exists (k + 1). split; [done | lia].
Qed.

Lemma window_paint (cfg : config) (center : Z) (l : list color) :
  length l = Z.to_nat (NUM_LIGHTS cfg) ->
  for_each (fun i l => py_set l i (window_color center i))
           (upto (NUM_LIGHTS cfg)) l
  = OK (map (window_color center) (upto (NUM_LIGHTS cfg))).
Proof.
  intros Hlen. unfold upto at 1.
  rewrite (for_each_overwrite (map (window_color center) (upto (NUM_LIGHTS cfg)))).
  - rewrite <- Hlen, drop_all, app_nil_r.
    rewrite firstn_all2; [done | rewrite length_map, upto_length; lia].
  - intros k x l' Hx Hk. apply list_lookup_fmap_Some_1 in Hx as (i & -> & Hi).
    rewrite upto_lookup in Hi
      by (apply lookup_lt_Some in Hi; by rewrite upto_length in Hi).
    injection Hi as <-. by apply py_set_nat.
  - by rewrite length_map, upto_length.
  - lia.
Qed.

Lemma window_frame_paint (cfg : config) (center : Z) :
  window_frame cfg center (map (window_color center) (upto (NUM_LIGHTS cfg))).
Proof.
  split; [by rewrite length_map, upto_length|].
  intros i Hi. rewrite list_lookup_fmap, upto_lookup by lia. simpl.
  rewrite Z2Nat.id by lia. unfold window_color, in_range.
  destruct (Z.leb_spec (center - 2) i), (Z.ltb_spec i (center + 2));
    simpl; split; (done || lia).
Qed.

Lemma clamp_center_bounds (cfg : config) (c : Z) :
  2 * ALEXA_HALF_POINTER_WIDTH cfg <= NUM_LIGHTS cfg ->
  ALEXA_HALF_POINTER_WIDTH cfg <= clamp_center cfg c
    <= NUM_LIGHTS cfg - ALEXA_HALF_POINTER_WIDTH cfg.
Proof. unfold clamp_center. lia. Qed.

(** One repetition: the buffer it leaves and the frame it renders. *)
Lemma look_once_ok (py : dialect) (cfg : config) (bits : nat -> bool)
  (st : engine) :
  2 <= ALEXA_HALF_POINTER_WIDTH cfg ->
  2 * ALEXA_HALF_POINTER_WIDTH cfg <= NUM_LIGHTS cfg ->
  length (np st) = Z.to_nat (NUM_LIGHTS cfg) ->
  CYAN ∈ np st ->
  exists st',
    look_once py cfg bits st = OK st' /\
    log st' = log st ++ [Render (np st');
                         Sleep (py_mul (SLEEP_TIME cfg) (PInt 32))] /\
    pointer_frame cfg (np st') /\
    CYAN ∈ np st'.
Proof.
  intros HH HN Hlen Hin. unfold look_once.
  destruct (py_index_elem_of CYAN (np st) Hin) as (first & -> & Hfirst).
  cbn [bind getrandbits1 np]. rewrite look_offset_spec. cbn [bind].
  set (center := clamp_center cfg _).
  pose proof (clamp_center_bounds cfg
    (first + ALEXA_HALF_POINTER_WIDTH cfg +
       (if NUM_LIGHTS cfg <? 2 * (first + ALEXA_HALF_POINTER_WIDTH cfg)
        then look_magnitude cfg (Z.b2z (bits (draws st))) * -1
        else look_magnitude cfg (Z.b2z (bits (draws st))))) HN) as Hc.
  fold center in Hc.
  rewrite window_paint by done. cbn [bind].
  pose proof (window_frame_paint cfg center) as Hwin.
  rewrite render_ok by (cbn [np with_np]; destruct Hwin as [-> _]; lia).
  eexists. split; [done|]. cbn [np log emit with_np].
  split; [by rewrite <- app_assoc|]. split.
  - exists center. split; [lia|]. split; [lia|]. split; [lia|]. exact Hwin.
  - destruct Hwin as [_ Hwin]. destruct (Hwin (center - 2)) as [Hcyan _]; [lia|].
    eapply list_elem_of_lookup_2. apply Hcyan. lia.
Qed.

(** [look_around] returns. *)
Lemma look_around_returns (py : dialect) (cfg : config)
  (bits : nat -> bool) (st : engine) :
  2 <= ALEXA_HALF_POINTER_WIDTH cfg ->
  2 * ALEXA_HALF_POINTER_WIDTH cfg <= NUM_LIGHTS cfg ->
  length (np st) = Z.to_nat (NUM_LIGHTS cfg) ->
  CYAN ∈ np st ->
  exists st', look_around py cfg bits st = OK st'.
Proof.
  intros HH HN Hlen Hin. unfold look_around. cbn [getrandbits1].
  set (st0 := {| np := np st; log := log st; draws := S (draws st) |}).
  destruct (look_once_ok py cfg bits st0 HH HN Hlen Hin)
    as (st1 & Hrun1 & _ & Hframe1 & Hin1).
  assert (Hlen1 : length (np st1) = Z.to_nat (NUM_LIGHTS cfg))
    by (destruct Hframe1 as (c & _ & _ & _ & Hl & _); exact Hl).
  destruct (bits (draws st)); simpl; rewrite Hrun1; cbn [bind]; [|eauto].
  destruct (look_once_ok py cfg bits st1 HH HN Hlen1 Hin1)
    as (st2 & -> & _). eauto.
Qed.

(** C5.  With a pointer half-width of at least 2 that fits twice into the
    strip, and a buffer of the configured length holding a pointer cell,
    [look_around] succeeds; it renders one or two frames, one per
    repetition; each of them shows exactly one whole window of four
    pointer cells inside the strip and the background everywhere else,
    with the centre inside the range of the clamp; the buffer it leaves is
    the last of these frames. *)
Theorem look_around_keeps_pointer_window (py : dialect) (cfg : config)
  (bits : nat -> bool) (st : engine) :
  2 <= ALEXA_HALF_POINTER_WIDTH cfg ->
  2 * ALEXA_HALF_POINTER_WIDTH cfg <= NUM_LIGHTS cfg ->
  length (np st) = Z.to_nat (NUM_LIGHTS cfg) ->
  CYAN ∈ np st ->
  exists st' shown,
    look_around py cfg bits st = OK st' /\
    frames_of (log st') = frames_of (log st) ++ shown /\
    length shown = (if bits (draws st) then 2 else 1)%nat /\
    Forall (pointer_frame cfg) shown /\
    last shown = Some (np st').
Proof.
  intros HH HN Hlen Hin. unfold look_around. cbn [getrandbits1].
  set (st0 := {| np := np st; log := log st; draws := S (draws st) |}).
  destruct (look_once_ok py cfg bits st0 HH HN Hlen Hin)
    as (st1 & Hrun1 & Hlog1 & Hframe1 & Hin1).
  assert (Hlen1 : length (np st1) = Z.to_nat (NUM_LIGHTS cfg))
    by (destruct Hframe1 as (c & _ & _ & _ & Hl & _); exact Hl).
  destruct (bits (draws st)); simpl.
  - destruct (look_once_ok py cfg bits st1 HH HN Hlen1 Hin1)
      as (st2 & Hrun2 & Hlog2 & Hframe2 & Hin2).
    exists st2, [np st1; np st2]. rewrite Hrun1. cbn [bind]. rewrite Hrun2.
    cbn [bind]. split; [done|]. rewrite Hlog2, Hlog1.
    rewrite !frames_of_app. simpl. rewrite <- app_assoc. simpl.
    repeat split; auto.
  - exists st1, [np st1]. rewrite Hrun1. cbn [bind]. split; [done|].
    rewrite Hlog1, frames_of_app. simpl. repeat split; auto.
Qed.

Lemma look_around_keeps_pointer_window_witness :
  exists st' shown,
    look_around Python3 default_config (fun _ => true) centered = OK st' /\
    frames_of (log st') = frames_of (log centered) ++ shown /\
    length shown = (if (fun _ : nat => true) (draws centered) then 2 else 1)%nat /\
    Forall (pointer_frame default_config) shown /\
    last shown = Some (np st').
Proof.
  apply (look_around_keeps_pointer_window Python3 default_config
           (fun _ => true) centered).
  - simpl. lia.
  - simpl. lia.
  - reflexivity.
  - apply list_elem_of_In. simpl. tauto.
Defined.

(** From the centre 10 the pointer moves up by 4 and back down by 4. *)
Example look_around_from_the_middle :
  (fun r => match r with
            | OK st => frames_of (log st)
            | Raise _ => []
            end)
    (look_around Python3 default_config (fun _ => true) centered)
  = [repeat BLUE 12 ++ repeat CYAN 4 ++ repeat BLUE 4;
     repeat BLUE 8 ++ repeat CYAN 4 ++ repeat BLUE 8].
Proof. vm_compute. reflexivity. Qed.

(** ** The pulse *)

(** [SLEEP_TIME*12] is a float whenever [SLEEP_TIME] is, and the first fade
    stops at [range(frames)]. *)
Lemma alternating_pulse_fade_float (py : dialect) (cfg : config) (q : Q)
  (st : engine) :
  SLEEP_TIME cfg = PFloat q ->
  alternating_pulse_fade py cfg st = Raise TypeError.
Proof. intros Hq. unfold alternating_pulse_fade. rewrite Hq. done. Qed.

(** C8, at the configuration of the module.  The frame count handed to
    [fade_to_color] is [SLEEP_TIME*12], the float 0.5, not the int 12: the
    first fade raises [TypeError], on every interpreter and from every
    state, before any repetition, frame or hold. *)
Theorem alternating_pulse_fade_raises (py : dialect) (st : engine) :
  py_mul (SLEEP_TIME default_config) (PInt 12) = PFloat (12 # 24) /\
  fade_to_color py default_config CYAN (PFloat (12 # 24)) st = Raise TypeError /\
  alternating_pulse_fade py default_config st = Raise TypeError.
Proof. repeat split. Qed.

(** In [unit_test], where [SLEEP_TIME] is the int 0, the frame count is 0:
    the six fades render nothing and change nothing. *)
Remark alternating_pulse_fade_unit_test (py : dialect) (n w : Z) (st : engine) :
  alternating_pulse_fade py (unit_test_config n w) st
  = OK (emit st (Sleep (PInt 0))).
Proof. done. Qed.

(** What a fade over a positive int number of frames adds to the log. *)
Lemma fade_to_color_step (py : dialect) (cfg : config) (target : color)
  (F : Z) (st : engine) :
  1 <= F -> 0 < NUM_LIGHTS cfg ->
  length (np st) = Z.to_nat (NUM_LIGHTS cfg) ->
  exists st' shown,
    fade_to_color py cfg target (PInt F) st = OK st' /\
    log st' = log st ++ shown /\
    length (frames_of shown) = Z.to_nat F /\
    np st' = repeat target (Z.to_nat (NUM_LIGHTS cfg)).
Proof.
  intros HF HN Hl. eexists. eexists.
  split; [by apply fade_to_color_int|]. cbn [np log].
  split; [reflexivity|]. split; [|reflexivity].
  by rewrite frames_of_fade_log, length_map, upto_length.
Qed.

(** With an int frame interval of one second the count is the int 12, and
    the pulse is the one the docstrings describe: three times twelve
    frames to cyan and twelve to blue, then the hold. *)
Lemma alternating_pulse_fade_int (py : dialect) (cfg : config) (st : engine) :
  SLEEP_TIME cfg = PInt 1 -> 0 < NUM_LIGHTS cfg ->
  length (np st) = Z.to_nat (NUM_LIGHTS cfg) ->
  exists st' shown,
    alternating_pulse_fade py cfg st = OK st' /\
    log st' = log st ++ shown ++ [Sleep (PInt 32)] /\
    length (frames_of shown) = 72%nat /\
    np st' = repeat BLUE (Z.to_nat (NUM_LIGHTS cfg)).
Proof.
  intros Hs HN Hl. unfold alternating_pulse_fade. rewrite Hs.
  change (py_mul (PInt 1) (PInt 12)) with (PInt 12).
  change (py_mul (PInt 1) (PInt 32)) with (PInt 32).
  change (upto 3) with [0; 1; 2]. cbn [for_each].
  assert (H12 : 1 <= 12) by lia.
  destruct (fade_to_color_step py cfg CYAN 12 st H12 HN Hl)
    as (s1 & l1 & -> & Hlog1 & Hn1 & Hnp1). cbn [bind].
  assert (Hl1 : length (np s1) = Z.to_nat (NUM_LIGHTS cfg))
    by (rewrite Hnp1; apply repeat_length).
  destruct (fade_to_color_step py cfg BLUE 12 s1 H12 HN Hl1)
    as (s2 & l2 & -> & Hlog2 & Hn2 & Hnp2). cbn [bind].
  assert (Hl2 : length (np s2) = Z.to_nat (NUM_LIGHTS cfg))
    by (rewrite Hnp2; apply repeat_length).
  destruct (fade_to_color_step py cfg CYAN 12 s2 H12 HN Hl2)
    as (s3 & l3 & -> & Hlog3 & Hn3 & Hnp3). cbn [bind].
  assert (Hl3 : length (np s3) = Z.to_nat (NUM_LIGHTS cfg))
    by (rewrite Hnp3; apply repeat_length).
  destruct (fade_to_color_step py cfg BLUE 12 s3 H12 HN Hl3)
    as (s4 & l4 & -> & Hlog4 & Hn4 & Hnp4). cbn [bind].
  assert (Hl4 : length (np s4) = Z.to_nat (NUM_LIGHTS cfg))
    by (rewrite Hnp4; apply repeat_length).
  destruct (fade_to_color_step py cfg CYAN 12 s4 H12 HN Hl4)
    as (s5 & l5 & -> & Hlog5 & Hn5 & Hnp5). cbn [bind].
  assert (Hl5 : length (np s5) = Z.to_nat (NUM_LIGHTS cfg))
    by (rewrite Hnp5; apply repeat_length).
  destruct (fade_to_color_step py cfg BLUE 12 s5 H12 HN Hl5)
    as (s6 & l6 & -> & Hlog6 & Hn6 & Hnp6). cbn [bind].
  exists (emit s6 (Sleep (PInt 32))), (l1 ++ l2 ++ l3 ++ l4 ++ l5 ++ l6).
  split; [reflexivity|]. cbn [np log emit].
  split; [rewrite Hlog6, Hlog5, Hlog4, Hlog3, Hlog2, Hlog1;
          by rewrite <- !app_assoc|].
  split; [|exact Hnp6].
  rewrite !frames_of_app, !length_app, Hn1, Hn2, Hn3, Hn4, Hn5, Hn6.
  reflexivity.
Qed.

(** ** The power-on sweep *)

Ltac shape_cases :=
  unfold update, seed_shape, sweep_shape;
  repeat (match goal with
          | |- context [?a <? ?b] => destruct (Z.ltb_spec a b)
          | |- context [?a <=? ?b] => destruct (Z.leb_spec a b)
          | |- context [?a =? ?b] => destruct (Z.eqb_spec a b)
          end; try lia);
  simpl; try (done || lia).

Lemma paint_length (n : Z) (f : Z -> color) :
  length (paint n f) = Z.to_nat n.
Proof. unfold paint. by rewrite length_map, upto_length. Qed.

Lemma paint_lookup (n : Z) (f : Z -> color) (k : nat) :
  (k < Z.to_nat n)%nat -> paint n f !! k = Some (f (Z.of_nat k)).
Proof.
  intros Hk. unfold paint. by rewrite list_lookup_fmap, upto_lookup.
Qed.

Lemma paint_ext (n : Z) (f g : Z -> color) :
  (forall i, 0 <= i < n -> f i = g i) -> paint n f = paint n g.
Proof.
  intros Hfg. unfold paint. apply map_ext_in. intros i Hi.
  apply Hfg, upto_bounds. by apply list_elem_of_In.
Qed.

Lemma paint_const (n : Z) (c : color) :
  paint n (fun _ => c) = repeat c (Z.to_nat n).
Proof.
  unfold paint, upto. induction (Z.to_nat n) as [|k IH]; [done|].
  rewrite upto_nat_S, map_app, IH. simpl.
  by rewrite <- repeat_cons.
Qed.

Lemma py_get_paint (n : Z) (f : Z -> color) (i : Z) :
  0 <= i < n -> py_get (paint n f) i = OK (f i).
Proof.
  intros Hi. apply py_get_pos; [lia|].
  rewrite paint_lookup by lia. by rewrite Z2Nat.id by lia.
Qed.

Lemma insert_paint (n : Z) (f : Z -> color) (i : Z) (v : color) :
  0 <= i < n ->
  <[Z.to_nat i:=v]> (paint n f) = paint n (update f i v).
Proof.
  intros Hi. apply list_eq. intros k.
  destruct (decide (k < Z.to_nat n)%nat) as [Hk|Hk].
  - rewrite list_lookup_insert, !paint_lookup, paint_length by done.
    unfold update. case_decide as Hd.
    + destruct Hd as [<- _]. rewrite Z2Nat.id by lia. by rewrite Z.eqb_refl.
    + destruct (Z.eqb_spec (Z.of_nat k) i) as [<-|]; [|done].
      exfalso. apply Hd. lia.
  - rewrite !lookup_ge_None_2; [done | |];
      rewrite ?length_insert, paint_length; lia.
Qed.

Lemma py_set_paint (n : Z) (f : Z -> color) (i : Z) (v : color) :
  0 <= i < n -> py_set (paint n f) i v = OK (paint n (update f i v)).
Proof.
  intros Hi. rewrite py_set_pos by (rewrite paint_length; lia).
  by rewrite insert_paint.
Qed.

(** A negative index counts from the end of the buffer. *)
Lemma py_set_paint_neg (n : Z) (f : Z -> color) (i : Z) (v : color) :
  - n <= i < 0 -> py_set (paint n f) i v = OK (paint n (update f (n + i) v)).
Proof.
  intros Hi. unfold py_set, py_norm. rewrite paint_length.
  rewrite Z2Nat.id by lia.
  destruct (Z.leb_spec 0 i); [lia|]. simpl.
  destruct (Z.leb_spec (- n) i), (Z.ltb_spec i 0); try lia. simpl.
  by rewrite insert_paint by lia.
Qed.

Lemma black_next_to_cyan_paint (n : Z) (f : Z -> color) (i j : Z) :
  0 <= i < n -> (f i = BLACK -> 0 <= j < n) ->
  black_next_to_cyan (paint n f) i j
  = OK (bool_decide (f i = BLACK) && bool_decide (f j = CYAN)).
Proof.
  intros Hi Hj. unfold black_next_to_cyan.
  rewrite py_get_paint by done. cbn [bind].
  case_bool_decide as Hb; [|done].
  by rewrite py_get_paint by auto.
Qed.

(** *** Seeding *)

Lemma seed_rounds (cfg : config) (j : nat) :
  Z.of_nat j <= NUM_LIGHTS cfg ->
  for_each (fun i l => let* l := py_set l i CYAN in
                       py_set l (-1 + (i * -1)) CYAN)
           (map Z.of_nat (seq 0 j)) (paint (NUM_LIGHTS cfg) (seed_shape cfg 0))
  = OK (paint (NUM_LIGHTS cfg) (seed_shape cfg (Z.of_nat j))).
Proof.
  intros Hj. induction j as [|j IH]; [done|].
  rewrite upto_nat_S, for_each_app, IH by lia. simpl.
  rewrite py_set_paint by lia. cbn [bind].
  rewrite py_set_paint_neg by lia. cbn [bind for_each]. f_equal.
  apply paint_ext. intros i Hi. shape_cases.
Qed.

Lemma seed_dark (cfg : config) :
  0 <= ALEXA_HALF_POINTER_WIDTH cfg ->
  2 * ALEXA_HALF_POINTER_WIDTH cfg <= NUM_LIGHTS cfg ->
  seed cfg (repeat BLACK (Z.to_nat (NUM_LIGHTS cfg)))
  = OK (paint (NUM_LIGHTS cfg) (sweep_shape cfg 0)).
Proof.
  intros HH HN. unfold seed, upto.
  rewrite <- paint_const.
  rewrite (paint_ext _ (fun _ => BLACK) (seed_shape cfg 0))
    by (intros i Hi; shape_cases).
  rewrite seed_rounds by lia. f_equal.
  apply paint_ext. intros i Hi. rewrite Z2Nat.id by lia. shape_cases.
Qed.

(** *** One frame of the sweep, where [NUM_LIGHTS/2] is an int *)

Section Sweep.

Variable cfg : config.
(** Half the strip, rounded down. *)
Variable m : Z.
Hypothesis Hm : 2 * m <= NUM_LIGHTS cfg <= 2 * m + 1.
Hypothesis Hhalf : 1 <= ALEXA_HALF_POINTER_WIDTH cfg.

(** The frame number, with cells still off in the middle. *)
Variable t : Z.
Hypothesis Ht : 0 <= t.
Hypothesis Hoff : t + ALEXA_HALF_POINTER_WIDTH cfg < m.

(** Going inward, the front condition holds at the first cell that is
    off, and nowhere else in the first half. *)
Lemma front_condition (index : Z) :
  0 <= index < m ->
  bool_decide (sweep_shape cfg t index = BLACK)
  && bool_decide (sweep_shape cfg t (index - 1) = CYAN)
  = bool_decide (index = t + ALEXA_HALF_POINTER_WIDTH cfg).
Proof.
  intros Hi. shape_cases; repeat case_bool_decide; (done || lia).
Qed.

(** The back condition holds at the mirror image of that cell. *)
Lemma back_condition (index : Z) :
  0 <= index < m ->
  bool_decide (sweep_shape cfg t (NUM_LIGHTS cfg - index - 1) = BLACK)
  && bool_decide (sweep_shape cfg t (NUM_LIGHTS cfg - index - 1 + 1) = CYAN)
  = bool_decide (index = t + ALEXA_HALF_POINTER_WIDTH cfg).
Proof.
  intros Hi. shape_cases; repeat case_bool_decide; (done || lia).
Qed.

Lemma sweep_shape_black (i : Z) :
  sweep_shape cfg t i = BLACK ->
  t + ALEXA_HALF_POINTER_WIDTH cfg <= i
    < NUM_LIGHTS cfg - t - ALEXA_HALF_POINTER_WIDTH cfg.
Proof. shape_cases. Qed.

Lemma sweep_index_paint (index : Z) (g : Z -> color) :
  0 <= index < m ->
  sweep_index cfg (paint (NUM_LIGHTS cfg) (sweep_shape cfg t)) index
    (paint (NUM_LIGHTS cfg) g)
  = OK (if bool_decide (index = t + ALEXA_HALF_POINTER_WIDTH cfg)
        then paint (NUM_LIGHTS cfg) (sweep_writes cfg t g)
        else paint (NUM_LIGHTS cfg) g).
Proof.
  intros Hi. unfold sweep_index.
  rewrite black_next_to_cyan_paint
    by (try (intros Hb%sweep_shape_black); lia).
  rewrite front_condition by done. cbn [bind].
  case_bool_decide as Hhit.
  - subst index. rewrite py_set_paint by lia. cbn [bind].
    rewrite py_set_paint by lia. cbn [bind].
    rewrite black_next_to_cyan_paint
      by (try (intros Hb%sweep_shape_black); lia).
    rewrite back_condition by done. cbn [bind].
    rewrite bool_decide_true by done.
    rewrite py_set_paint by lia. cbn [bind].
    by rewrite py_set_paint by lia.
  - cbn [bind].
    rewrite black_next_to_cyan_paint
      by (try (intros Hb%sweep_shape_black); lia).
    rewrite back_condition by done.
    by rewrite bool_decide_false by done.
Qed.

(** The four writes turn frame [t] into frame [t+1], and leave frame
    [t+1] as it is. *)
Lemma sweep_writes_next (g : Z -> color) (i : Z) :
  0 <= i < NUM_LIGHTS cfg ->
  g i = sweep_shape cfg t i \/ g i = sweep_shape cfg (t + 1) i ->
  sweep_writes cfg t g i = sweep_shape cfg (t + 1) i.
Proof.
  intros Hi [Hg|Hg]; unfold sweep_writes, update; rewrite ?Hg;
    shape_cases.
Qed.

(** Visiting the indices [ks] of the first half, in any order. *)
Lemma sweep_indices (ks : list Z) (l : list color) :
  Forall (fun k => 0 <= k < m) ks ->
  l = paint (NUM_LIGHTS cfg) (sweep_shape cfg t)
  \/ l = paint (NUM_LIGHTS cfg) (sweep_shape cfg (t + 1)) ->
  for_each (sweep_index cfg (paint (NUM_LIGHTS cfg) (sweep_shape cfg t))) ks l
  = OK (if bool_decide (t + ALEXA_HALF_POINTER_WIDTH cfg ∈ ks)
        then paint (NUM_LIGHTS cfg) (sweep_shape cfg (t + 1))
        else l).
Proof.
  intros Hks. revert l. induction Hks as [|k ks Hk Hks IH]; intros l Hl.
  - done.
  - cbn [for_each].
    assert (exists g, l = paint (NUM_LIGHTS cfg) g /\
              forall i, 0 <= i < NUM_LIGHTS cfg ->
                g i = sweep_shape cfg t i \/ g i = sweep_shape cfg (t + 1) i)
      as (g & -> & Hg) by (destruct Hl as [->| ->]; eexists; eauto).
    rewrite sweep_index_paint by done. cbn [bind].
    destruct (decide (k = t + ALEXA_HALF_POINTER_WIDTH cfg)) as [->|Hne].
    + rewrite (bool_decide_true (_ = _)) by done.
      rewrite (paint_ext _ (sweep_writes cfg t g) (sweep_shape cfg (t + 1)))
        by (intros i Hi; apply sweep_writes_next; auto).
      rewrite IH by auto.
      rewrite (bool_decide_true (_ ∈ _ :: _)) by (apply elem_of_cons; auto).
      by destruct (bool_decide _).
    + rewrite (bool_decide_false (_ = _)) by done.
      rewrite IH by auto.
      destruct (decide (t + ALEXA_HALF_POINTER_WIDTH cfg ∈ ks)) as [Hin|Hin].
      * rewrite !bool_decide_true; [done | | done].
        apply elem_of_cons; auto.
      * rewrite !bool_decide_false; [done | | done].
        intros [?|?]%elem_of_cons; [congruence | done].
Qed.

Lemma sweep_frame_floor (st : engine) :
  np st = paint (NUM_LIGHTS cfg) (sweep_shape cfg t) ->
  sweep_frame Python2 cfg st
  = OK {| np := paint (NUM_LIGHTS cfg) (sweep_shape cfg (t + 1));
          log := log st
                 ++ [Render (paint (NUM_LIGHTS cfg) (sweep_shape cfg (t + 1)));
                     Sleep (SLEEP_TIME cfg)];
          draws := draws st |}.
Proof.
  intros Hnp. unfold sweep_frame. rewrite Hnp. simpl py_div. cbn [bind].
  replace (NUM_LIGHTS cfg `div` 2) with m
    by (apply Z.div_unique with (NUM_LIGHTS cfg - 2 * m); lia).
  cbn [py_range bind].
  rewrite sweep_indices; [ | | by left].
  - rewrite bool_decide_true.
    + cbn [bind].
      rewrite render_ok by (cbn [np with_np]; rewrite paint_length; lia).
      cbn [bind np emit with_np].
      rewrite pprint_ok by (rewrite paint_length; lia).
      cbn [bind]. unfold sleep, emit. cbn [np log draws].
      by rewrite <- app_assoc.
    + unfold upto. apply list_elem_of_fmap.
      exists (Z.to_nat (t + ALEXA_HALF_POINTER_WIDTH cfg)).
      split; [lia|]. apply elem_of_seq. lia.
  - apply Forall_forall. intros k Hk. by apply upto_bounds.
Qed.

End Sweep.

(** *** The loop *)

Lemma sweep_loop_unfold (py : dialect) (cfg : config) (fuel : nat)
  (st : engine) :
  sweep_loop py cfg fuel st
  = if bool_decide (BLACK ∈ np st)
    then match fuel with
         | O => None
         | S fuel' =>
             match sweep_frame py cfg st with
             | OK st' => sweep_loop py cfg fuel' st'
             | Raise e => Some (Raise e)
             end
         end
    else Some (OK st).
Proof. by destruct fuel. Qed.

(** Cells are off as long as the two halves of the pointer have not met. *)
Lemma sweep_shape_off (cfg : config) (t : Z) :
  0 <= t -> 0 <= ALEXA_HALF_POINTER_WIDTH cfg ->
  2 * (t + ALEXA_HALF_POINTER_WIDTH cfg) < NUM_LIGHTS cfg ->
  BLACK ∈ paint (NUM_LIGHTS cfg) (sweep_shape cfg t).
Proof.
  intros Ht HH Hoff. apply list_elem_of_lookup.
  exists (Z.to_nat (t + ALEXA_HALF_POINTER_WIDTH cfg)).
  rewrite paint_lookup by lia. rewrite Z2Nat.id by lia.
  f_equal. shape_cases.
Qed.

(** Once they have met, every cell shows the pointer or the background. *)
Lemma sweep_shape_lit (cfg : config) (t i : Z) :
  NUM_LIGHTS cfg <= 2 * (t + ALEXA_HALF_POINTER_WIDTH cfg) ->
  sweep_shape cfg t i = CYAN \/ sweep_shape cfg t i = BLUE.
Proof. intros Hmet. shape_cases; auto. Qed.

Lemma paint_elem_of (n : Z) (f : Z -> color) (c : color) :
  c ∈ paint n f -> exists i, 0 <= i < n /\ c = f i.
Proof.
  unfold paint. intros (i & -> & Hi)%list_elem_of_fmap.
  exists i. split; [by apply upto_bounds | done].
Qed.

Lemma sweep_shape_no_black (cfg : config) (t : Z) :
  NUM_LIGHTS cfg <= 2 * (t + ALEXA_HALF_POINTER_WIDTH cfg) ->
  BLACK ∉ paint (NUM_LIGHTS cfg) (sweep_shape cfg t).
Proof.
  intros Hmet (i & _ & Hi)%paint_elem_of.
  by destruct (sweep_shape_lit cfg t i Hmet) as [Hc|Hc]; rewrite Hc in Hi.
Qed.

(** With floor division the loop runs one frame for each step the two
    halves of the pointer are apart, and stops. *)
Lemma sweep_loop_floor (cfg : config) (m : Z) (d : nat) :
  NUM_LIGHTS cfg = 2 * m -> 1 <= ALEXA_HALF_POINTER_WIDTH cfg ->
  forall (t : Z) (st : engine) (fuel : nat),
    0 <= t -> t + ALEXA_HALF_POINTER_WIDTH cfg + Z.of_nat d = m ->
    np st = paint (NUM_LIGHTS cfg) (sweep_shape cfg t) ->
    (d <= fuel)%nat ->
    exists st' shown,
      sweep_loop Python2 cfg fuel st = Some (OK st') /\
      np st' = paint (NUM_LIGHTS cfg)
                 (sweep_shape cfg (m - ALEXA_HALF_POINTER_WIDTH cfg)) /\
      log st' = log st ++ shown /\
      length (frames_of shown) = d /\
      Forall (fun e => forall f, e = Render f -> length f = length (np st))
             shown.
Proof.
  intros Heven HH. induction d as [|d IH]; intros t st fuel Ht Hd Hnp Hfuel.
  - exists st, []. rewrite sweep_loop_unfold, Hnp.
    rewrite bool_decide_false by (apply sweep_shape_no_black; lia).
    replace (m - ALEXA_HALF_POINTER_WIDTH cfg) with t by lia.
    rewrite app_nil_r. auto.
  - destruct fuel as [|fuel]; [lia|].
    rewrite sweep_loop_unfold, Hnp.
    rewrite bool_decide_true by (apply sweep_shape_off; lia).
    rewrite (sweep_frame_floor cfg m ltac:(lia) HH t Ht) by (done || lia).
    edestruct (IH (t + 1)) as (st' & shown & -> & Hnp' & Hlog' & Hn & Hlen);
      [lia | lia | | | ].
    + cbn [np]. reflexivity.
    + lia.
    + eexists. eexists. split; [reflexivity|]. split; [done|].
      cbn [np log] in *. rewrite Hlog', <- app_assoc.
      split; [reflexivity|]. split.
      * rewrite frames_of_app. simpl. by rewrite Hn.
      * rewrite !paint_length in *. repeat constructor; [| |done].
        -- intros f [= <-]. apply paint_length.
        -- intros f [=].
Qed.

(** What the module's comments describe, on an interpreter whose [/] is
    floor division: from a strip that is all off, of even length, with a
    pointer half that fits twice, [turn_on] returns; it renders
    [NUM_LIGHTS/2 - ALEXA_HALF_POINTER_WIDTH] frames and leaves the whole
    pointer in the middle of the background, no cell off. *)
Lemma turn_on_floor_division (cfg : config) (st : engine) (fuel : nat) :
  Z.even (NUM_LIGHTS cfg) = true ->
  1 <= ALEXA_HALF_POINTER_WIDTH cfg ->
  2 * ALEXA_HALF_POINTER_WIDTH cfg <= NUM_LIGHTS cfg ->
  np st = repeat BLACK (Z.to_nat (NUM_LIGHTS cfg)) ->
  (Z.to_nat (NUM_LIGHTS cfg / 2 - ALEXA_HALF_POINTER_WIDTH cfg) <= fuel)%nat ->
  exists st' shown,
    turn_on Python2 cfg fuel st = Some (OK st') /\
    log st' = log st ++ shown ++ [Sleep (py_mul (SLEEP_TIME cfg) (PInt 32))] /\
    length (frames_of shown)
    = Z.to_nat (NUM_LIGHTS cfg / 2 - ALEXA_HALF_POINTER_WIDTH cfg) /\
    np st' = paint (NUM_LIGHTS cfg)
               (sweep_shape cfg
                  (NUM_LIGHTS cfg / 2 - ALEXA_HALF_POINTER_WIDTH cfg)) /\
    length (np st') = Z.to_nat (NUM_LIGHTS cfg) /\
    (BLACK ∉ np st') /\
    forall (i : nat) (c : color), np st' !! i = Some c -> c = CYAN \/ c = BLUE.
Proof.
  intros Heven HH HN Hnp Hfuel.
  apply Z.even_spec in Heven as [m Hm].
  replace (NUM_LIGHTS cfg `div` 2) with m in *
    by (rewrite Hm, Z.mul_comm, Z.div_mul; lia).
  unfold turn_on. rewrite Hnp, seed_dark by lia.
  destruct (sweep_loop_floor cfg m
              (Z.to_nat (m - ALEXA_HALF_POINTER_WIDTH cfg)) Hm HH 0
              (with_np st (paint (NUM_LIGHTS cfg) (sweep_shape cfg 0))) fuel)
    as (st' & shown & -> & Hnp' & Hlog' & Hn & _); [lia | lia | done | lia |].
  exists (emit st' (Sleep (py_mul (SLEEP_TIME cfg) (PInt 32)))), shown.
  split; [done|]. cbn [np log emit]. rewrite Hlog', Hnp'. cbn [log with_np].
  split; [by rewrite <- app_assoc|]. split; [done|]. split; [done|].
  split; [apply paint_length|].
  split; [apply sweep_shape_no_black; lia|].
  intros i c Hc. apply list_elem_of_lookup_2, paint_elem_of in Hc
    as (j & _ & ->). apply sweep_shape_lit. lia.
Qed.

(** The sweep of the default strip: eight frames, the pointer on the cells
    8 to 11. *)
Example turn_on_default_floor_division :
  option_map
    (fun r => match r with
              | OK st => OK (np st, length (frames_of (log st)))
              | Raise e => Raise e
              end)
    (turn_on Python2 default_config 8 (dark default_config))
  = Some (OK (repeat BLUE 8 ++ repeat CYAN 4 ++ repeat BLUE 8, 8%nat)).
Proof. vm_compute. reflexivity. Qed.

(** Four lights, the first round of [unit_test]: the seeds cover the
    strip, the loop is not entered and no frame is rendered, on every
    interpreter. *)
Example turn_on_four_lights (py : dialect) (w : Z) (fuel : nat) :
  turn_on py (unit_test_config 4 w) fuel (dark (unit_test_config 4 w))
  = Some (OK {| np := [CYAN; CYAN; CYAN; CYAN];
                log := [Sleep (PInt 0)]; draws := 0%nat |}).
Proof. by destruct fuel. Qed.

(** An odd strip is the reason the length has to be even: with five
    lights the seeds leave the middle cell off, no pass of the loop finds
    its condition true, and the loop never stops. *)
Remark sweep_loop_odd_strip (w : Z) (fuel : nat) (st : engine) :
  np st = [CYAN; CYAN; BLACK; CYAN; CYAN] ->
  sweep_loop Python2 (unit_test_config 5 w) fuel st = None.
Proof.
  revert st. induction fuel as [|fuel IH]; intros st Hnp.
  - rewrite sweep_loop_unfold, Hnp. done.
  - rewrite sweep_loop_unfold, Hnp.
    rewrite bool_decide_true by (apply list_elem_of_In; simpl; tauto).
    unfold sweep_frame. rewrite Hnp. cbn. by apply IH.
Qed.

(** *** The sweep where [/] is true division *)

(** [NUM_LIGHTS/2] is a float and [range] refuses it: a frame of the sweep
    raises before it reads or writes a cell. *)
Lemma sweep_frame_true_division (cfg : config) (st : engine) :
  sweep_frame Python3 cfg st = Raise TypeError.
Proof. done. Qed.

Lemma sweep_loop_true_division (cfg : config) (fuel : nat) (st : engine) :
  BLACK ∈ np st ->
  sweep_loop Python3 cfg (S fuel) st = Some (Raise TypeError).
Proof.
  intros Hoff. rewrite sweep_loop_unfold.
  by rewrite bool_decide_true, sweep_frame_true_division.
Qed.

(** Whenever the seeds leave a cell off, [turn_on] raises. *)
Lemma turn_on_true_division (cfg : config) (fuel : nat) (st : engine) :
  0 <= ALEXA_HALF_POINTER_WIDTH cfg ->
  2 * ALEXA_HALF_POINTER_WIDTH cfg < NUM_LIGHTS cfg ->
  np st = repeat BLACK (Z.to_nat (NUM_LIGHTS cfg)) ->
  turn_on Python3 cfg (S fuel) st = Some (Raise TypeError).
Proof.
  intros HH HN Hnp. unfold turn_on. rewrite Hnp, seed_dark by lia.
  rewrite sweep_loop_true_division; [done|].
  cbn [np with_np]. apply sweep_shape_off; lia.
Qed.

(** C3, at the configuration of the module.  On MicroPython and Python 3
    [turn_on] does not complete from the strip that is all off: the first
    pass of the loop raises [TypeError] at [range(NUM_LIGHTS/2)], whatever
    the fuel. *)
Theorem turn_on_raises_type_error (fuel : nat) :
  turn_on Python3 default_config (S fuel) (dark default_config)
  = Some (Raise TypeError).
Proof. by apply turn_on_true_division. Qed.

(** C4, at the configuration of the module.  On MicroPython and Python 3
    the frame loop of the sweep stops in its first pass, with a
    [TypeError] and before a frame is rendered; no frame reduces the
    number of cells that are off. *)
Theorem sweep_loop_raises_before_first_frame (fuel : nat) :
  seed default_config (np (dark default_config)) = OK (np seeded) /\
  sweep_frame Python3 default_config seeded = Raise TypeError /\
  sweep_loop Python3 default_config (S fuel) seeded = Some (Raise TypeError).
Proof. repeat split. Qed.

(** ** The play sequence *)

(** The module as configured, from the strip the constructor leaves.  On
    MicroPython and Python 3 the sequence ends in the sweep; where [/] is
    floor division the sweep and the look-around pass and it ends in the
    pulse.  Either way it ends in a [TypeError]. *)
Remark play_true_division (bits : nat -> bool) (fuel : nat) :
  play Python3 default_config bits (S fuel) (dark default_config)
  = Some (Raise TypeError).
Proof.
  unfold play. by rewrite turn_on_true_division.
Qed.

Remark play_floor_division (bits : nat -> bool) :
  play Python2 default_config bits 8 (dark default_config)
  = Some (Raise TypeError).
Proof.
  unfold play.
  destruct (turn_on_floor_division default_config (dark default_config) 8)
    as (st1 & shown & -> & _ & _ & Hnp & Hlen & _); try (done || (simpl; lia)).
  assert (Hin : CYAN ∈ np st1).
  { rewrite Hnp. apply list_elem_of_In. vm_compute. tauto. }
  destruct (look_around_returns Python2 default_config bits st1)
    as (st2 & ->); [simpl; lia | simpl; lia | done | done |].
  cbn [bind alternating_flash].
  by rewrite (alternating_pulse_fade_float _ _ (1 # 24)).
Qed.

(** * Further properties of the module *)

(** ** pprint *)

Lemma py_get_last {A} (l : list A) (y : A) : py_get (l ++ [y]) (-1) = OK y.
Proof.
  unfold py_get, py_norm. rewrite length_app. simpl.
  destruct (Z.leb_spec 0 (-1)); [lia|]. simpl.
  destruct (Z.leb_spec (- Z.of_nat (length l + 1)) (-1)); [|lia]. simpl.
  replace (Z.to_nat (Z.of_nat (length l + 1) + -1)) with (length l) by lia.
  by rewrite list_lookup_middle.
Qed.

(** The loop of [pprint] after [j] rounds, on a list with a first and a
    last element. *)
Lemma pprint_loop {A} (x y : A) (mid : list A) (j : nat) :
  (j <= length mid + 2)%nat ->
  for_each (fun i lines =>
              if (i =? 0) || (i =? Z.of_nat (length (x :: mid ++ [y])) - 1)
              then OK lines
              else (let* e := py_get (x :: mid ++ [y]) i in
                    OK (lines ++ [Inner e])))
           (map Z.of_nat (seq 0 j)) [Opening x]
  = OK (Opening x :: map Inner (take (j - 1) mid)).
Proof.
  intros Hj. induction j as [|j IH]; [done|].
  rewrite upto_nat_S, for_each_app, IH by lia. simpl for_each. cbn [bind].
  rewrite length_app. simpl length.
  destruct (Z.eqb_spec (Z.of_nat j) 0) as [Hz|Hz]; simpl orb.
  - simpl. by replace j with 0%nat by lia.
  - destruct (Z.eqb_spec (Z.of_nat j) (Z.of_nat (S (length mid + 1)) - 1))
      as [Hl|Hl]; simpl.
    + f_equal. f_equal. f_equal.
      rewrite !firstn_all2; (done || lia).
    + destruct j as [|j]; [lia|].
      destruct (lookup_lt_is_Some_2 mid j) as [e He]; [lia|].
      rewrite (py_get_nat (x :: mid ++ [y]) (S j) e)
        by (simpl; by rewrite lookup_app_l by (by eapply lookup_lt_Some)).
      simpl. f_equal. f_equal.
      replace (j - 0)%nat with j by lia.
      rewrite (take_S_r mid j e He). by rewrite map_app.
Qed.

Lemma pprint_lines_long {A} (x y : A) (mid : list A) :
  pprint_lines (x :: mid ++ [y])
  = OK (Opening x :: map Inner mid ++ [Closing y]).
Proof.
  unfold pprint_lines. cbn [py_get py_norm bind length].
  change (x :: mid ++ [y]) with ((x :: mid) ++ [y]) at 3.
  rewrite py_get_last.
  unfold upto. rewrite Nat2Z.id.
  change (py_get (x :: mid ++ [y]) 0) with (OK x). cbn [bind].
  rewrite (pprint_loop x y mid) by (simpl; rewrite length_app; simpl; lia).
  cbn [bind]. simpl length. rewrite length_app. simpl length.
  replace (S (length mid + 1) - 1)%nat with (S (length mid)) by lia.
  by rewrite firstn_all2 by lia.
Qed.

(** X1.  On a list of two or more elements [pprint] prints one line per
    element, in the order of the list: the first element after the
    opening bracket, the last one before the closing bracket, the others
    in between. *)
Theorem pprint_lines_each_element_once {A} (x y : A) (mid : list A) :
  pprint_lines (x :: mid ++ [y])
  = OK (Opening x :: map Inner mid ++ [Closing y]) /\
  map shown_item (Opening x :: map Inner mid ++ [Closing y])
  = x :: mid ++ [y].
Proof.
  split; [apply pprint_lines_long|].
  simpl. f_equal. rewrite map_app, map_map. simpl. by rewrite map_id.
Qed.

(** X2.  The short lists: [pprint] raises [IndexError] on the empty list,
    and on no other list; a list of one element gets two lines, both
    showing that element. *)
Theorem pprint_lines_short_lists {A} (l : list A) :
  (pprint_lines l = Raise IndexError <-> l = []) /\
  (forall x : A, pprint_lines [x] = OK [Opening x; Closing x]) /\
  (pprint l = Raise IndexError <-> l = []).
Proof.
  split; [|split].
  - split; [|by intros ->].
    destruct l as [|x l]; [done|]. intros Hraise. exfalso.
    destruct (exists_last (l := x :: l)) as (l' & y & Hl); [done|].
    destruct l' as [|x' mid].
    + simpl in Hl. injection Hl as -> ->. discriminate Hraise.
    + rewrite Hl in Hraise. simpl in Hraise.
      by rewrite (pprint_lines_long x' y mid) in Hraise.
  - done.
  - by destruct l.
Qed.

(** ** set_neopixel_to_list *)

(** X3.  [set_neopixel_to_list] called with a list no longer than the
    strip returns the strip with its first cells replaced by the list,
    cell by cell: the other cells and the length are kept. *)
Theorem set_neopixel_to_list_overwrites_prefix {A} (l input_list : list A) :
  (length input_list <= length l)%nat ->
  exists l',
    set_neopixel_to_list l input_list = OK l' /\
    length l' = length l /\
    forall i : nat,
      ((i < length input_list)%nat -> l' !! i = input_list !! i) /\
      ((length input_list <= i)%nat -> l' !! i = l !! i).
Proof.
  intros Hlen. eexists. split; [by apply set_neopixel_to_list_ok|].
  split.
  - rewrite length_app, length_drop. lia.
  - intros i. split; intros Hi.
    + by rewrite lookup_app_l.
    + rewrite lookup_app_r by done. rewrite lookup_drop. f_equal. lia.
Qed.

Lemma set_neopixel_to_list_overwrites_prefix_witness :
  exists l',
    set_neopixel_to_list [BLACK; BLACK; BLACK] [CYAN; BLUE] = OK l' /\
    length l' = length [BLACK; BLACK; BLACK] /\
    forall i : nat,
      ((i < length [CYAN; BLUE])%nat -> l' !! i = [CYAN; BLUE] !! i) /\
      ((length [CYAN; BLUE] <= i)%nat -> l' !! i = [BLACK; BLACK; BLACK] !! i).
Proof.
  apply (set_neopixel_to_list_overwrites_prefix
           [BLACK; BLACK; BLACK] [CYAN; BLUE]).
  simpl. lia.
Defined.

Lemma py_norm_past_end (len : nat) : py_norm len (Z.of_nat len) = Raise IndexError.
Proof.
  unfold py_norm.
  destruct (Z.leb_spec 0 (Z.of_nat len)), (Z.ltb_spec (Z.of_nat len) (Z.of_nat len)),
    (Z.leb_spec (- Z.of_nat len) (Z.of_nat len)), (Z.ltb_spec (Z.of_nat len) 0);
    simpl; (done || lia).
Qed.

Lemma upto_nat_split (a n : nat) :
  (a < n)%nat ->
  map Z.of_nat (seq 0 n)
  = map Z.of_nat (seq 0 a) ++ Z.of_nat a :: map Z.of_nat (seq (S a) (n - S a)).
Proof.
  intros Ha. replace n with (a + S (n - S a))%nat at 1 by lia.
  rewrite seq_app, map_app. done.
Qed.

(** X4.  [set_neopixel_to_list] called with a list longer than the strip
    raises [IndexError], at the first element that has no cell. *)
Theorem set_neopixel_to_list_too_long {A} (l input_list : list A) :
  (length l < length input_list)%nat ->
  set_neopixel_to_list l input_list = Raise IndexError.
Proof.
  intros Hlen. unfold set_neopixel_to_list, upto. rewrite Nat2Z.id.
  rewrite (upto_nat_split (length l)) by done.
  rewrite for_each_app.
  rewrite (for_each_overwrite input_list); [ | | lia | lia].
  - cbn [bind for_each]. rewrite drop_all, app_nil_r.
    destruct (lookup_lt_is_Some_2 input_list (length l)) as [v Hv]; [lia|].
    rewrite (py_get_nat _ _ _ Hv). cbn [bind]. unfold py_set.
    rewrite length_take. replace (length l `min` length input_list)%nat
      with (length l) by lia.
    by rewrite py_norm_past_end.
  - intros k x l' Hx Hk. rewrite (py_get_nat _ _ _ Hx). simpl.
    by apply py_set_nat.
Qed.

Lemma set_neopixel_to_list_too_long_witness :
  set_neopixel_to_list [BLACK; BLACK] [CYAN; CYAN; CYAN] = Raise IndexError.
Proof.
  apply (set_neopixel_to_list_too_long [BLACK; BLACK] [CYAN; CYAN; CYAN]).
  simpl. lia.
Defined.

(** ** The constructor, again *)

(** X5.  The constructor returns an engine exactly when the strip has at
    least one light; otherwise it raises [IndexError], from the [pprint]
    of the empty list. *)
Theorem init_returns_iff_some_light (cfg : config) :
  ((exists st, init cfg = OK st) <-> 0 < NUM_LIGHTS cfg) /\
  (init cfg = Raise IndexError <-> NUM_LIGHTS cfg <= 0).
Proof.
  destruct (Z.lt_ge_cases 0 (NUM_LIGHTS cfg)) as [Hpos|Hnone].
  - rewrite init_ok by done. split; split; try done; try lia.
    intros _. eauto.
  - rewrite init_no_light by lia. split; split; try done; try lia.
    by intros [st Hst].
Qed.

(** ** Fading, again *)

Lemma fade_quotient_zero (py : dialect) (F : Z) : fade_quotient py 0 F = 0.
Proof. destruct py; simpl; [apply Zdiv_0_l | by destruct F]. Qed.

Lemma fade_color_same (py : dialect) (c : color) (F k : Z) :
  fade_color py c F k c = c.
Proof.
  destruct c as [[r g] b]. unfold fade_color, fade_value.
  rewrite !Z.sub_diag, fade_quotient_zero. f_equal; [f_equal|]; lia.
Qed.

Lemma map_repeat_const {A B} (f : A -> B) (x : A) (n : nat) :
  map f (repeat x n) = repeat (f x) n.
Proof. induction n as [|n IH]; [done|]. simpl. by rewrite IH. Qed.

Lemma map_const_repeat {A B} (y : B) (l : list A) :
  map (fun _ => y) l = repeat y (length l).
Proof. induction l as [|x l IH]; [done|]. simpl. by rewrite IH. Qed.

(** X6.  Fading to the colour the whole strip already shows changes
    nothing: each of the [F] frames shows the strip as it was, and so does
    the buffer at the end.  This holds on every interpreter. *)
Theorem fade_to_color_same_color (py : dialect) (cfg : config) (c : color)
  (F : Z) (st : engine) :
  1 <= F -> 0 < NUM_LIGHTS cfg ->
  np st = repeat c (Z.to_nat (NUM_LIGHTS cfg)) ->
  exists st',
    fade_to_color py cfg c (PInt F) st = OK st' /\
    np st' = np st /\
    frames_of (log st')
    = frames_of (log st) ++ repeat (np st) (Z.to_nat F).
Proof.
  intros HF HN Hnp.
  assert (Hl : length (np st) = Z.to_nat (NUM_LIGHTS cfg))
    by (rewrite Hnp; apply repeat_length).
  eexists. split; [by apply fade_to_color_int|]. cbn [np log].
  split; [done|].
  rewrite frames_of_app, frames_of_fade_log. f_equal.
  rewrite <- (upto_length F), <- map_const_repeat.
  apply map_ext. intros k. unfold fade_expected.
  destruct (k =? F - 1); [done|].
  rewrite Hnp, map_repeat_const. by rewrite fade_color_same.
Qed.

Lemma fade_to_color_same_color_witness :
  exists st',
    fade_to_color Python3 default_config BLACK (PInt 10) (dark default_config)
    = OK st' /\
    np st' = np (dark default_config) /\
    frames_of (log st')
    = frames_of (log (dark default_config))
      ++ repeat (np (dark default_config)) (Z.to_nat 10).
Proof.
  apply (fade_to_color_same_color Python3 default_config BLACK 10
           (dark default_config)); [lia | reflexivity | reflexivity].
Defined.

(** From one frame to the next a channel moves by one truncated step,
    which never passes the target. *)
Lemma fade_value_approaches (target start F k : Z) :
  1 <= F -> 0 <= k -> k + 1 < F - 1 ->
  between (fade_value Python3 target start F k) target
          (fade_value Python3 target start F (k + 1)).
Proof.
  intros HF Hk Hk1. unfold between, fade_value, fade_quotient.
  pose proof (Z.quot_rem' (target - start) F) as Hqr.
  destruct (Z.le_gt_cases 0 (target - start)) as [Hd|Hd].
  - pose proof (Z.rem_bound_pos (target - start) F Hd ltac:(lia)).
    assert (0 <= (target - start) ÷ F) by nia.
    nia.
  - pose proof (Z.rem_bound_pos (- (target - start)) F ltac:(lia) ltac:(lia))
      as Hr.
    rewrite Z.rem_opp_l' in Hr.
    assert ((target - start) ÷ F <= 0) by nia.
    nia.
Qed.

(** X7.  Where [/] is true division a fade never steps back: in each
    frame after the first, every channel of every pixel lies between its
    value in the frame before and its target value. *)
Theorem fade_to_color_never_steps_back (cfg : config) (tr tg tb F k : Z)
  (st : engine) :
  0 < NUM_LIGHTS cfg ->
  length (np st) = Z.to_nat (NUM_LIGHTS cfg) ->
  0 <= k < F - 1 ->
  exists st' frame next,
    fade_to_color Python3 cfg (tr, tg, tb) (PInt F) st = OK st' /\
    frames_of (log st') !! (length (frames_of (log st)) + Z.to_nat k)%nat
    = Some frame /\
    frames_of (log st') !! (length (frames_of (log st)) + Z.to_nat (k + 1))%nat
    = Some next /\
    forall (i : nat) (r g b r' g' b' : Z),
      frame !! i = Some (r, g, b) ->
      next !! i = Some (r', g', b') ->
      between r tr r' /\ between g tg g' /\ between b tb b'.
Proof.
  intros HN Hl Hk.
  assert (HF : 1 <= F) by lia.
  assert (Hk0 : 0 <= k < F) by lia. assert (Hk1 : 0 <= k + 1 < F) by lia.
  pose proof (fade_to_color_int Python3 cfg (tr, tg, tb) F st HF HN Hl) as Hrun.
  eexists. eexists. eexists. split; [exact Hrun|].
  split; [exact (fade_to_color_frame _ _ _ _ _ _ _ Hk0 HN Hl Hrun)|].
  split; [exact (fade_to_color_frame _ _ _ _ _ _ _ Hk1 HN Hl Hrun)|].
  intros i r g b r' g' b' Hfr Hnx. unfold fade_expected in *.
  destruct (Z.eqb_spec k (F - 1)) as [|_]; [lia|].
  apply list_lookup_fmap_Some_1 in Hfr as ([[sr sg] sb] & Hfr & Hs).
  simpl in Hfr. injection Hfr as -> -> ->.
  destruct (Z.eqb_spec (k + 1) (F - 1)) as [Hlast|Hnot].
  - apply list_elem_of_lookup_2, list_elem_of_In, repeat_spec in Hnx.
    injection Hnx as -> -> ->.
    pose proof (fade_value_between tr sr F k HF Hk).
    pose proof (fade_value_between tg sg F k HF Hk).
    pose proof (fade_value_between tb sb F k HF Hk).
    unfold between in *. lia.
  - apply list_lookup_fmap_Some_1 in Hnx as (s' & Hnx & Hs').
    assert (s' = (sr, sg, sb)) as -> by congruence.
    simpl in Hnx. injection Hnx as -> -> ->.
    repeat split; apply fade_value_approaches; lia.
Qed.

Lemma fade_to_color_never_steps_back_witness :
  exists st' frame next,
    fade_to_color Python3 default_config (0, 5, 40) (PInt 10)
      (dark default_config) = OK st' /\
    frames_of (log st')
      !! (length (frames_of (log (dark default_config))) + Z.to_nat 8)%nat
    = Some frame /\
    frames_of (log st')
      !! (length (frames_of (log (dark default_config))) + Z.to_nat (8 + 1))%nat
    = Some next /\
    forall (i : nat) (r g b r' g' b' : Z),
      frame !! i = Some (r, g, b) ->
      next !! i = Some (r', g', b') ->
      between r 0 r' /\ between g 5 g' /\ between b 40 b'.
Proof.
  apply (fade_to_color_never_steps_back default_config 0 5 40 10 8
           (dark default_config)); [reflexivity | reflexivity | lia].
Defined.

(** X8.  A frame count that is not positive makes the fade do nothing: it
    returns the engine as it was, no frame rendered and no sleep, on every
    interpreter. *)
Theorem fade_to_color_without_frames (py : dialect) (cfg : config)
  (target : color) (F : Z) (st : engine) :
  F <= 0 ->
  fade_to_color py cfg target (PInt F) st = OK st /\
  forall q : Q, fade_to_color py cfg target (PFloat q) st = Raise TypeError.
Proof. intros HF. split; [by apply fade_to_color_no_frame | done]. Qed.

Lemma fade_to_color_without_frames_witness :
  fade_to_color Python2 default_config CYAN (PInt (-3)) (dark default_config)
  = OK (dark default_config) /\
  forall q : Q,
    fade_to_color Python2 default_config CYAN (PFloat q) (dark default_config)
    = Raise TypeError.
Proof.
  apply (fade_to_color_without_frames Python2 default_config CYAN (-3)
           (dark default_config)). lia.
Defined.

(** ** turn_off *)

(** X9.  [turn_off] brings a strip of any colours to all off in exactly
    ten frames, the last of which is the buffer it leaves, on every
    interpreter. *)
Theorem turn_off_leaves_strip_dark (py : dialect) (cfg : config) (st : engine) :
  0 < NUM_LIGHTS cfg ->
  length (np st) = Z.to_nat (NUM_LIGHTS cfg) ->
  exists st' shown,
    turn_off py cfg st = OK st' /\
    np st' = np (dark cfg) /\
    frames_of (log st') = frames_of (log st) ++ shown /\
    length shown = 10%nat /\
    last shown = Some (np st').
Proof.
  intros HN Hl. unfold turn_off.
  eexists. eexists. split; [apply fade_to_color_int; (done || lia)|].
  cbn [np log dark]. split; [done|].
  rewrite frames_of_app, frames_of_fade_log. split; [done|].
  split; [by rewrite length_map, upto_length|].
  change (upto 10) with (upto 9 ++ [9]). rewrite map_app, last_app. done.
Qed.

Lemma turn_off_leaves_strip_dark_witness :
  exists st' shown,
    turn_off Python3 default_config centered = OK st' /\
    np st' = np (dark default_config) /\
    frames_of (log st') = frames_of (log centered) ++ shown /\
    length shown = 10%nat /\
    last shown = Some (np st').
Proof.
  apply (turn_off_leaves_strip_dark Python3 default_config centered);
    reflexivity.
Defined.

(** ** The power-on sweep, again *)

Lemma paint_S (n : Z) (f : Z -> color) :
  0 <= n -> paint (n + 1) f = paint n f ++ [f n].
Proof. intros Hn. unfold paint. by rewrite upto_S, map_app. Qed.

Lemma paint_app (a b : Z) (f : Z -> color) :
  0 <= a -> 0 <= b ->
  paint (a + b) f = paint a f ++ paint b (fun i => f (a + i)).
Proof.
  intros Ha Hb. rewrite <- (Z2Nat.id b) by done.
  induction (Z.to_nat b) as [|n IH].
  - rewrite Z.add_0_r. by rewrite app_nil_r.
  - rewrite Nat2Z.inj_succ. unfold Z.succ.
    rewrite Z.add_assoc, !paint_S, IH by lia. by rewrite app_assoc.
Qed.

Lemma paint_const_on (n : Z) (f : Z -> color) (c : color) :
  (forall i, 0 <= i < n -> f i = c) -> paint n f = repeat c (Z.to_nat n).
Proof.
  intros Hc. rewrite <- paint_const. by apply paint_ext.
Qed.

(** The shape of a frame, cell by cell, is the five runs. *)
Lemma paint_sweep_runs (cfg : config) (t : Z) :
  0 <= t -> 0 <= ALEXA_HALF_POINTER_WIDTH cfg ->
  2 * (t + ALEXA_HALF_POINTER_WIDTH cfg) <= NUM_LIGHTS cfg ->
  paint (NUM_LIGHTS cfg) (sweep_shape cfg t) = sweep_runs cfg t.
Proof.
  intros Ht HH HN. unfold sweep_runs.
  set (H := ALEXA_HALF_POINTER_WIDTH cfg) in *.
  set (K := NUM_LIGHTS cfg - 2 * t - 2 * H).
  transitivity (paint (t + (H + (K + (H + t)))) (sweep_shape cfg t));
    [f_equal; lia|].
  rewrite !paint_app by lia.
  f_equal; [|f_equal; [|f_equal; [|f_equal]]];
    apply paint_const_on; intros i Hi; subst H K; shape_cases.
Qed.

Lemma frames_of_render (f : list color) (l : list event) :
  frames_of (Render f :: l) = f :: frames_of l.
Proof. done. Qed.

Lemma frames_of_sleep (s : pynum) (l : list event) :
  frames_of (Sleep s :: l) = frames_of l.
Proof. done. Qed.

Lemma frames_of_sweep_log (cfg : config) (d : nat) (t : Z) :
  frames_of (sweep_log cfg t d)
  = map (fun k => paint (NUM_LIGHTS cfg) (sweep_shape cfg (t + k + 1)))
        (map Z.of_nat (seq 0 d)).
Proof.
  revert t. induction d as [|d IH]; intros t; [done|].
  cbn [sweep_log]. rewrite frames_of_render, frames_of_sleep, IH.
  cbn [seq map]. rewrite Z.add_0_r. f_equal.
  rewrite <- seq_shift, !map_map.
  apply map_ext. intros k. do 2 f_equal. lia.
Qed.

(** The loop under floor division, to the letter: [d] frames from frame
    number [t], for a strip of either parity. *)
Lemma sweep_loop_floor_exact (cfg : config) (m : Z) (d : nat) :
  2 * m <= NUM_LIGHTS cfg <= 2 * m + 1 ->
  1 <= ALEXA_HALF_POINTER_WIDTH cfg ->
  forall (t : Z) (st : engine) (fuel : nat),
    0 <= t -> t + ALEXA_HALF_POINTER_WIDTH cfg + Z.of_nat d <= m ->
    np st = paint (NUM_LIGHTS cfg) (sweep_shape cfg t) ->
    sweep_loop Python2 cfg (d + fuel) st
    = sweep_loop Python2 cfg fuel
        {| np := paint (NUM_LIGHTS cfg) (sweep_shape cfg (t + Z.of_nat d));
           log := log st ++ sweep_log cfg t d;
           draws := draws st |}.
Proof.
  intros Hm HH. induction d as [|d IH]; intros t st fuel Ht Hd Hnp.
  - simpl. rewrite Z.add_0_r, app_nil_r, <- Hnp. by destruct st.
  - cbn [Nat.add]. rewrite sweep_loop_unfold, Hnp.
    rewrite bool_decide_true by (apply sweep_shape_off; lia).
    rewrite (sweep_frame_floor cfg m Hm HH t Ht) by (done || lia).
    rewrite (IH (t + 1)) by (done || lia). cbn [np log draws sweep_log].
    do 2 f_equal; [do 2 f_equal; lia | by rewrite <- app_assoc].
Qed.

Lemma seed_result (cfg : config) :
  0 <= ALEXA_HALF_POINTER_WIDTH cfg <= NUM_LIGHTS cfg ->
  seed cfg (repeat BLACK (Z.to_nat (NUM_LIGHTS cfg)))
  = OK (paint (NUM_LIGHTS cfg) (seed_shape cfg (ALEXA_HALF_POINTER_WIDTH cfg))).
Proof.
  intros HH. unfold seed, upto. rewrite <- paint_const.
  rewrite (paint_ext _ (fun _ => BLACK) (seed_shape cfg 0))
    by (intros i Hi; shape_cases).
  rewrite seed_rounds by lia. by rewrite Z2Nat.id by lia.
Qed.

(** X10.  Where [/] is floor division, on a strip of even length that is
    all off, with a pointer half of at least one cell that fits twice,
    [turn_on] returns after exactly [NUM_LIGHTS/2 - ALEXA_HALF_POINTER_WIDTH]
    frames.  Frame [k] shows [k+1] background cells at each end, then the
    two halves of the pointer, and the cells in the middle still off: each
    frame has two cells fewer off than the one before.  The buffer it
    leaves is the last frame, the whole pointer in the middle and no cell
    off, and the last thing it does is the long sleep. *)
Theorem turn_on_floor_division_frames (cfg : config) (st : engine)
  (fuel : nat) :
  Z.even (NUM_LIGHTS cfg) = true ->
  1 <= ALEXA_HALF_POINTER_WIDTH cfg ->
  2 * ALEXA_HALF_POINTER_WIDTH cfg <= NUM_LIGHTS cfg ->
  np st = repeat BLACK (Z.to_nat (NUM_LIGHTS cfg)) ->
  (Z.to_nat (NUM_LIGHTS cfg / 2 - ALEXA_HALF_POINTER_WIDTH cfg) <= fuel)%nat ->
  exists st',
    turn_on Python2 cfg fuel st = Some (OK st') /\
    frames_of (log st')
    = frames_of (log st)
      ++ map (fun k => sweep_runs cfg (k + 1))
             (upto (NUM_LIGHTS cfg / 2 - ALEXA_HALF_POINTER_WIDTH cfg)) /\
    np st'
    = sweep_runs cfg (NUM_LIGHTS cfg / 2 - ALEXA_HALF_POINTER_WIDTH cfg) /\
    last (log st') = Some (Sleep (py_mul (SLEEP_TIME cfg) (PInt 32))) /\
    draws st' = draws st.
Proof.
  intros Heven HH HN Hnp Hfuel.
  apply Z.even_spec in Heven as [m Hm].
  replace (NUM_LIGHTS cfg `div` 2) with m in *
    by (rewrite Hm, Z.mul_comm, Z.div_mul; lia).
  set (d := Z.to_nat (m - ALEXA_HALF_POINTER_WIDTH cfg)) in *.
  unfold turn_on. rewrite Hnp, seed_dark by lia.
  replace fuel with (d + (fuel - d))%nat by lia.
  rewrite (sweep_loop_floor_exact cfg m d ltac:(lia) HH 0) by (done || lia).
  rewrite sweep_loop_unfold. cbn [np].
  rewrite bool_decide_false by (apply sweep_shape_no_black; lia).
  eexists. split; [reflexivity|]. cbn [np log draws sleep emit with_np].
  split; [|split; [|split; [|done]]].
  - rewrite !frames_of_app, frames_of_sweep_log. simpl frames_of.
    rewrite app_nil_r. f_equal. unfold upto. fold d.
    apply map_ext_in. intros k Hk.
    apply list_elem_of_In, list_elem_of_fmap in Hk as (j & -> & Hj).
    apply elem_of_seq in Hj.
    replace (0 + Z.of_nat j + 1) with (Z.of_nat j + 1) by lia.
    apply paint_sweep_runs; lia.
  - replace (0 + Z.of_nat d) with (m - ALEXA_HALF_POINTER_WIDTH cfg) by lia.
    apply paint_sweep_runs; lia.
  - by rewrite last_snoc.
Qed.

Lemma turn_on_floor_division_frames_witness :
  exists st',
    turn_on Python2 default_config 8 (dark default_config) = Some (OK st') /\
    frames_of (log st')
    = frames_of (log (dark default_config))
      ++ map (fun k => sweep_runs default_config (k + 1))
             (upto (NUM_LIGHTS default_config / 2
                    - ALEXA_HALF_POINTER_WIDTH default_config)) /\
    np st'
    = sweep_runs default_config
        (NUM_LIGHTS default_config / 2
         - ALEXA_HALF_POINTER_WIDTH default_config) /\
    last (log st')
    = Some (Sleep (py_mul (SLEEP_TIME default_config) (PInt 32))) /\
    draws st' = draws (dark default_config).
Proof.
  apply (turn_on_floor_division_frames default_config (dark default_config) 8).
  - reflexivity.
  - simpl. lia.
  - simpl. lia.
  - reflexivity.
  - vm_compute. lia.
Defined.

(** When the two seeds cover the strip, nothing is left for the loop. *)
Lemma turn_on_seeds_cover (py : dialect) (cfg : config) (fuel : nat)
  (st : engine) :
  0 <= ALEXA_HALF_POINTER_WIDTH cfg <= NUM_LIGHTS cfg ->
  NUM_LIGHTS cfg <= 2 * ALEXA_HALF_POINTER_WIDTH cfg ->
  np st = repeat BLACK (Z.to_nat (NUM_LIGHTS cfg)) ->
  turn_on py cfg fuel st
  = Some (OK (emit (with_np st (repeat CYAN (Z.to_nat (NUM_LIGHTS cfg))))
                   (Sleep (py_mul (SLEEP_TIME cfg) (PInt 32))))).
Proof.
  intros HH HN Hnp. unfold turn_on. rewrite Hnp, seed_result by done.
  rewrite (paint_const_on _ _ CYAN) by (intros i Hi; shape_cases).
  rewrite sweep_loop_unfold. cbn [np with_np].
  rewrite bool_decide_false; [done|].
  by intros [=]%list_elem_of_In%repeat_spec.
Qed.

(** X11.  A strip no longer than the pointer, but at least as long as
    half of it: the seeds cover it, the loop is not entered, and
    [turn_on] returns at once with every cell in the pointer colour, no
    frame rendered, on every interpreter and whatever the fuel. *)
Theorem turn_on_short_strip (py : dialect) (cfg : config) (fuel : nat)
  (st : engine) :
  0 <= ALEXA_HALF_POINTER_WIDTH cfg <= NUM_LIGHTS cfg ->
  NUM_LIGHTS cfg <= 2 * ALEXA_HALF_POINTER_WIDTH cfg ->
  np st = repeat BLACK (Z.to_nat (NUM_LIGHTS cfg)) ->
  exists st',
    turn_on py cfg fuel st = Some (OK st') /\
    np st' = repeat CYAN (Z.to_nat (NUM_LIGHTS cfg)) /\
    frames_of (log st') = frames_of (log st) /\
    log st' = log st ++ [Sleep (py_mul (SLEEP_TIME cfg) (PInt 32))].
Proof.
  intros HH HN Hnp. eexists. split; [by apply turn_on_seeds_cover|].
  cbn [np log emit with_np]. split; [done|]. split; [|done].
  rewrite frames_of_app. simpl. by rewrite app_nil_r.
Qed.

Lemma turn_on_short_strip_witness :
  exists st',
    turn_on Python3 odd_config 0 (dark odd_config) = Some (OK st') /\
    np st' = repeat CYAN (Z.to_nat (NUM_LIGHTS odd_config)) /\
    frames_of (log st') = frames_of (log (dark odd_config)) /\
    log st' = log (dark odd_config)
              ++ [Sleep (py_mul (SLEEP_TIME odd_config) (PInt 32))].
Proof.
  apply (turn_on_short_strip Python3 odd_config 0 (dark odd_config)).
  - simpl. lia.
  - simpl. lia.
  - reflexivity.
Defined.

Lemma seed_too_short (cfg : config) :
  0 <= NUM_LIGHTS cfg < ALEXA_HALF_POINTER_WIDTH cfg ->
  seed cfg (repeat BLACK (Z.to_nat (NUM_LIGHTS cfg))) = Raise IndexError.
Proof.
  intros HN. unfold seed, upto. rewrite <- paint_const.
  rewrite (paint_ext _ (fun _ => BLACK) (seed_shape cfg 0))
    by (intros i Hi; shape_cases).
  rewrite (upto_nat_split (Z.to_nat (NUM_LIGHTS cfg))) by lia.
  rewrite for_each_app, seed_rounds by lia. cbn [bind for_each].
  unfold py_set at 1. rewrite paint_length.
  by rewrite py_norm_past_end.
Qed.

(** X12.  A strip shorter than half the pointer: [turn_on] raises
    [IndexError] while it seeds the ends, at the first seed that has no
    cell, on every interpreter. *)
Theorem turn_on_strip_shorter_than_seed (py : dialect) (cfg : config)
  (fuel : nat) (st : engine) :
  0 <= NUM_LIGHTS cfg < ALEXA_HALF_POINTER_WIDTH cfg ->
  np st = repeat BLACK (Z.to_nat (NUM_LIGHTS cfg)) ->
  turn_on py cfg fuel st = Some (Raise IndexError).
Proof.
  intros HN Hnp. unfold turn_on. by rewrite Hnp, seed_too_short.
Qed.

Lemma turn_on_strip_shorter_than_seed_witness :
  turn_on Python3 (unit_test_config 1 2) 0 (dark (unit_test_config 1 2))
  = Some (Raise IndexError).
Proof.
  apply (turn_on_strip_shorter_than_seed Python3 (unit_test_config 1 2) 0
           (dark (unit_test_config 1 2))).
  - simpl. lia.
  - reflexivity.
Defined.

(** X13.  Where [/] is true division, [turn_on] on a strip that is all
    off and at least as long as half the pointer returns exactly when the
    strip is no longer than the pointer; on every longer strip it raises
    [TypeError]. *)
Theorem turn_on_true_division_returns_iff (cfg : config) (fuel : nat)
  (st : engine) :
  0 <= ALEXA_HALF_POINTER_WIDTH cfg <= NUM_LIGHTS cfg ->
  np st = repeat BLACK (Z.to_nat (NUM_LIGHTS cfg)) ->
  ((exists st', turn_on Python3 cfg (S fuel) st = Some (OK st'))
   <-> NUM_LIGHTS cfg <= 2 * ALEXA_HALF_POINTER_WIDTH cfg) /\
  (turn_on Python3 cfg (S fuel) st = Some (Raise TypeError)
   <-> 2 * ALEXA_HALF_POINTER_WIDTH cfg < NUM_LIGHTS cfg).
Proof.
  intros HH Hnp.
  destruct (Z.le_gt_cases (NUM_LIGHTS cfg) (2 * ALEXA_HALF_POINTER_WIDTH cfg))
    as [Hshort|Hlong].
  - rewrite turn_on_seeds_cover by done.
    split; split; try done; try lia. intros _. eauto.
  - rewrite turn_on_true_division by (done || lia).
    split; split; try done; try lia. by intros [st' Hst'].
Qed.

Lemma turn_on_true_division_returns_iff_witness :
  ((exists st', turn_on Python3 default_config 1 (dark default_config)
                = Some (OK st'))
   <-> NUM_LIGHTS default_config
       <= 2 * ALEXA_HALF_POINTER_WIDTH default_config) /\
  (turn_on Python3 default_config 1 (dark default_config)
   = Some (Raise TypeError)
   <-> 2 * ALEXA_HALF_POINTER_WIDTH default_config
       < NUM_LIGHTS default_config).
Proof.
  apply (turn_on_true_division_returns_iff default_config 0
           (dark default_config)).
  - simpl. lia.
  - reflexivity.
Defined.

Lemma py_get_past_end {A} (l : list A) :
  py_get l (Z.of_nat (length l)) = Raise IndexError.
Proof. unfold py_get. by rewrite py_norm_past_end. Qed.

Lemma py_get_paint_neg (n : Z) (f : Z -> color) (i : Z) :
  - n <= i < 0 -> py_get (paint n f) i = OK (f (n + i)).
Proof.
  intros Hi. unfold py_get, py_norm. rewrite paint_length.
  rewrite Z2Nat.id by lia.
  destruct (Z.leb_spec 0 i); [lia|]. simpl.
  destruct (Z.leb_spec (- n) i), (Z.ltb_spec i 0); try lia. simpl.
  rewrite paint_lookup by lia. by rewrite Z2Nat.id by lia.
Qed.

(** Without a pointer no cell is seeded, and the first pass of the loop
    reads one cell past the end of the strip. *)
Lemma sweep_frame_no_pointer (cfg : config) (st : engine) :
  ALEXA_HALF_POINTER_WIDTH cfg = 0 -> 2 <= NUM_LIGHTS cfg ->
  np st = repeat BLACK (Z.to_nat (NUM_LIGHTS cfg)) ->
  sweep_frame Python2 cfg st = Raise IndexError.
Proof.
  intros HH HN Hnp. unfold sweep_frame. rewrite Hnp. simpl py_div.
  cbn [bind py_range].
  assert (Hhalf : 1 <= NUM_LIGHTS cfg `div` 2)
    by (apply Z.div_le_lower_bound; lia).
  unfold upto.
  replace (Z.to_nat (NUM_LIGHTS cfg `div` 2))
    with (S (Z.to_nat (NUM_LIGHTS cfg `div` 2) - 1)) by lia.
  cbn [seq map for_each]. change (Z.of_nat 0) with 0.
  rewrite <- paint_const. unfold sweep_index, black_next_to_cyan.
  rewrite py_get_paint by lia. cbn [bind].
  rewrite bool_decide_true by done.
  rewrite py_get_paint_neg by lia. cbn [bind].
  rewrite bool_decide_false by done. cbn [bind].
  rewrite py_get_paint by lia. cbn [bind].
  rewrite bool_decide_true by done.
  replace (NUM_LIGHTS cfg - 0 - 1 + 1)
    with (Z.of_nat (length (paint (NUM_LIGHTS cfg) (fun _ => BLACK))))
    by (rewrite paint_length; lia).
  by rewrite py_get_past_end.
Qed.

(** X14.  With a pointer half of width zero and at least two lights,
    where [/] is floor division, [turn_on] does not spin on the strip that
    stays off: its first pass raises [IndexError], because the condition
    of the far end reads the cell after the last one. *)
Theorem turn_on_without_pointer (cfg : config) (fuel : nat) (st : engine) :
  ALEXA_HALF_POINTER_WIDTH cfg = 0 -> 2 <= NUM_LIGHTS cfg ->
  np st = repeat BLACK (Z.to_nat (NUM_LIGHTS cfg)) ->
  turn_on Python2 cfg (S fuel) st = Some (Raise IndexError).
Proof.
  intros HH HN Hnp. unfold turn_on, seed. rewrite HH.
  change (upto 0) with (@nil Z). cbn [for_each].
  rewrite sweep_loop_unfold. cbn [np with_np]. rewrite Hnp.
  rewrite bool_decide_true.
  - by rewrite sweep_frame_no_pointer.
  - replace (Z.to_nat (NUM_LIGHTS cfg))
      with (S (Z.to_nat (NUM_LIGHTS cfg) - 1)) by lia.
    apply list_elem_of_here.
Qed.

Lemma turn_on_without_pointer_witness :
  turn_on Python2 pointerless_config 1 (dark pointerless_config)
  = Some (Raise IndexError).
Proof.
  apply (turn_on_without_pointer pointerless_config 0
           (dark pointerless_config)).
  - reflexivity.
  - simpl. lia.
  - reflexivity.
Defined.

Lemma for_each_idle {I S} (body : I -> S -> result S) (l : list I) (s : S) :
  (forall i, i ∈ l -> body i s = OK s) -> for_each body l s = OK s.
Proof.
  induction l as [|i l IH]; intros Hidle; [done|].
  cbn [for_each]. rewrite Hidle by apply list_elem_of_here. cbn [bind].
  apply IH. intros j Hj. apply Hidle. by apply list_elem_of_further.
Qed.

Lemma sweep_shape_lit_cell (cfg : config) (t i : Z) :
  i < t + ALEXA_HALF_POINTER_WIDTH cfg
  \/ NUM_LIGHTS cfg - t - ALEXA_HALF_POINTER_WIDTH cfg <= i ->
  sweep_shape cfg t i <> BLACK.
Proof. intros Hi. shape_cases. Qed.

(** On an odd strip the two halves of the pointer stop one cell apart:
    the frame then changes nothing. *)
Lemma sweep_frame_stuck (cfg : config) (m t : Z) (st : engine) :
  NUM_LIGHTS cfg = 2 * m + 1 ->
  1 <= ALEXA_HALF_POINTER_WIDTH cfg -> 0 <= t ->
  t + ALEXA_HALF_POINTER_WIDTH cfg = m ->
  np st = paint (NUM_LIGHTS cfg) (sweep_shape cfg t) ->
  sweep_frame Python2 cfg st
  = OK {| np := np st;
          log := log st ++ [Render (np st); Sleep (SLEEP_TIME cfg)];
          draws := draws st |}.
Proof.
  intros Hodd HH Ht Hmet Hnp. unfold sweep_frame. rewrite Hnp. simpl py_div.
  cbn [bind py_range].
  replace (NUM_LIGHTS cfg `div` 2) with m
    by (apply Z.div_unique with 1; lia).
  rewrite for_each_idle.
  - cbn [bind].
    rewrite render_ok by (cbn [np with_np]; rewrite paint_length; lia).
    cbn [bind np emit with_np].
    rewrite pprint_ok by (rewrite paint_length; lia).
    cbn [bind]. unfold sleep, emit. cbn [np log draws].
    by rewrite <- app_assoc.
  - intros index Hi%upto_bounds. unfold sweep_index.
    rewrite black_next_to_cyan_paint;
      [ | lia | by intros Hb%sweep_shape_lit_cell; [|lia]].
    rewrite (bool_decide_false (_ = BLACK))
      by (apply sweep_shape_lit_cell; lia).
    cbn [andb bind].
    rewrite black_next_to_cyan_paint;
      [ | lia | by intros Hb%sweep_shape_lit_cell; [|lia]].
    by rewrite (bool_decide_false (_ = BLACK))
      by (apply sweep_shape_lit_cell; lia).
Qed.

Lemma sweep_loop_odd (cfg : config) (m : Z) (fuel : nat) :
  NUM_LIGHTS cfg = 2 * m + 1 ->
  1 <= ALEXA_HALF_POINTER_WIDTH cfg ->
  forall (t : Z) (st : engine),
    0 <= t -> t + ALEXA_HALF_POINTER_WIDTH cfg <= m ->
    np st = paint (NUM_LIGHTS cfg) (sweep_shape cfg t) ->
    sweep_loop Python2 cfg fuel st = None.
Proof.
  intros Hodd HH. induction fuel as [|fuel IH]; intros t st Ht Hm Hnp.
  - rewrite sweep_loop_unfold, Hnp.
    by rewrite bool_decide_true by (apply sweep_shape_off; lia).
  - rewrite sweep_loop_unfold, Hnp.
    rewrite bool_decide_true by (apply sweep_shape_off; lia).
    destruct (Z.eq_dec (t + ALEXA_HALF_POINTER_WIDTH cfg) m) as [Hmet|Hfar].
    + rewrite (sweep_frame_stuck cfg m t) by done.
      by apply (IH t).
    + rewrite (sweep_frame_floor cfg m ltac:(lia) HH t Ht) by (done || lia).
      apply (IH (t + 1)); (done || lia).
Qed.

(** X15.  The length has to be even: where [/] is floor division, on an
    odd strip that is all off and at least as long as the pointer,
    [turn_on] never returns.  The two halves of the pointer stop one cell
    apart and the loop goes on rendering the same frame. *)
Theorem turn_on_odd_strip_never_returns (cfg : config) (fuel : nat)
  (st : engine) :
  Z.odd (NUM_LIGHTS cfg) = true ->
  1 <= ALEXA_HALF_POINTER_WIDTH cfg ->
  2 * ALEXA_HALF_POINTER_WIDTH cfg <= NUM_LIGHTS cfg ->
  np st = repeat BLACK (Z.to_nat (NUM_LIGHTS cfg)) ->
  turn_on Python2 cfg fuel st = None.
Proof.
  intros Hodd HH HN Hnp. apply Z.odd_spec in Hodd as [m Hm].
  unfold turn_on. rewrite Hnp, seed_dark by lia.
  by rewrite (sweep_loop_odd cfg m fuel Hm HH 0) by (done || lia).
Qed.

Lemma turn_on_odd_strip_never_returns_witness :
  turn_on Python2 (unit_test_config 7 2) 100 (dark (unit_test_config 7 2))
  = None.
Proof.
  apply (turn_on_odd_strip_never_returns (unit_test_config 7 2) 100
           (dark (unit_test_config 7 2))).
  - reflexivity.
  - simpl. lia.
  - simpl. lia.
  - reflexivity.
Defined.

(** ** Looking around, again *)

Lemma py_index_not_elem {A} `{EqDecision A} (x : A) (l : list A) :
  x ∉ l -> py_index x l = Raise ValueError.
Proof.
  induction l as [|y l IH]; intros Hx; [done|].
  apply not_elem_of_cons in Hx as [Hne Hx]. simpl.
  rewrite bool_decide_false by congruence. by rewrite IH.
Qed.

Lemma py_index_first {A} `{EqDecision A} (x : A) (l : list A) (k : nat) :
  l !! k = Some x ->
  (forall j, (j < k)%nat -> l !! j <> Some x) ->
  py_index x l = OK (Z.of_nat k).
Proof.
  revert k. induction l as [|y l IH]; intros k Hk Hfirst; [done|].
  destruct k as [|k].
  - simpl in Hk. injection Hk as ->. simpl. by rewrite bool_decide_true.
  - simpl. rewrite bool_decide_false.
    + rewrite (IH k); [simpl; f_equal; lia | done |].
      intros j Hj. apply (Hfirst (S j)). lia.
    + intros ->. by apply (Hfirst 0%nat); [lia|].
Qed.

(** One repetition, to the letter, from the index of the first pointer
    cell. *)
Lemma look_once_exact (py : dialect) (cfg : config) (bits : nat -> bool)
  (st : engine) (first : Z) :
  py_index CYAN (np st) = OK first ->
  0 < NUM_LIGHTS cfg ->
  length (np st) = Z.to_nat (NUM_LIGHTS cfg) ->
  look_once py cfg bits st
  = OK (let center :=
          clamp_center cfg
            (first + ALEXA_HALF_POINTER_WIDTH cfg
             + (if NUM_LIGHTS cfg
                   <? 2 * (first + ALEXA_HALF_POINTER_WIDTH cfg)
                then look_magnitude cfg (Z.b2z (bits (draws st))) * -1
                else look_magnitude cfg (Z.b2z (bits (draws st))))) in
        {| np := map (window_color center) (upto (NUM_LIGHTS cfg));
           log := log st
                  ++ [Render (map (window_color center) (upto (NUM_LIGHTS cfg)));
                      Sleep (py_mul (SLEEP_TIME cfg) (PInt 32))];
           draws := S (draws st) |}).
Proof.
  intros Hfirst HN Hlen. unfold look_once. rewrite Hfirst.
  cbn [bind getrandbits1 np]. rewrite look_offset_spec. cbn [bind].
  rewrite window_paint by done. cbn [bind].
  rewrite render_ok
    by (cbn [np with_np]; rewrite length_map, upto_length; lia).
  cbn [bind]. unfold sleep, emit. cbn [np log draws with_np].
  by rewrite <- app_assoc.
Qed.

(** X16.  Without a pointer cell in the buffer [look_around] raises
    [ValueError], from [index(CYAN)], before it renders anything: on the
    strip the constructor leaves, for one. *)
Theorem look_around_without_pointer (py : dialect) (cfg : config)
  (bits : nat -> bool) (st : engine) :
  CYAN ∉ np st -> look_around py cfg bits st = Raise ValueError.
Proof.
  intros Hno. unfold look_around. cbn [getrandbits1].
  destruct (bits (draws st)); simpl; unfold look_once; cbn [np];
    by rewrite py_index_not_elem.
Qed.

Lemma look_around_without_pointer_witness :
  look_around Python3 default_config (fun _ => false) (dark default_config)
  = Raise ValueError.
Proof.
  apply (look_around_without_pointer Python3 default_config (fun _ => false)
           (dark default_config)).
  intros Hin%list_elem_of_In. simpl in Hin.
  repeat (destruct Hin as [Hin|Hin]; [discriminate Hin|]). exact Hin.
Defined.

(** The centre a window frame was painted around is the centre read back
    from it. *)
Lemma py_index_window (n c : Z) :
  0 <= c - 2 < n ->
  py_index CYAN (map (window_color c) (upto n)) = OK (c - 2).
Proof.
  intros Hc.
  change (map (window_color c) (upto n)) with (paint n (window_color c)).
  replace (OK (c - 2)) with (@OK Z (Z.of_nat (Z.to_nat (c - 2))))
    by (f_equal; lia).
  apply py_index_first.
  - rewrite paint_lookup by lia. rewrite Z2Nat.id by lia.
    unfold window_color, in_range.
    destruct (Z.leb_spec (c - 2) (c - 2)), (Z.ltb_spec (c - 2) (c + 2));
      (done || lia).
  - intros j Hj. rewrite paint_lookup by lia.
    unfold window_color, in_range.
    destruct (Z.leb_spec (c - 2) (Z.of_nat j)); [lia | done].
Qed.

(** X17.  With a pointer half of 2, one repetition of [look_around] on a
    frame showing the pointer around [c] reads [c] back as the centre and
    paints the pointer around [c] plus or minus the drawn magnitude,
    clamped to [[2, NUM_LIGHTS - 2]]: minus when [c] is strictly past the
    middle, plus otherwise. *)
Theorem look_once_moves_window (py : dialect) (cfg : config)
  (bits : nat -> bool) (st : engine) (c : Z) :
  ALEXA_HALF_POINTER_WIDTH cfg = 2 ->
  2 <= c <= NUM_LIGHTS cfg - 2 ->
  np st = map (window_color c) (upto (NUM_LIGHTS cfg)) ->
  exists st',
    look_once py cfg bits st = OK st' /\
    np st'
    = map (window_color
             (Z.max (Z.min (if NUM_LIGHTS cfg <? 2 * c
                            then c - look_magnitude cfg (Z.b2z (bits (draws st)))
                            else c + look_magnitude cfg (Z.b2z (bits (draws st))))
                           (NUM_LIGHTS cfg - 2)) 2))
          (upto (NUM_LIGHTS cfg)) /\
    draws st' = S (draws st).
Proof.
  intros HH Hc Hnp. eexists. split.
  - apply (look_once_exact py cfg bits st (c - 2)).
    + rewrite Hnp. apply py_index_window. lia.
    + lia.
    + by rewrite Hnp, length_map, upto_length.
  - cbn [np draws]. split; [|done]. unfold clamp_center. rewrite HH.
    replace (c - 2 + 2) with c by lia.
    do 4 f_equal. destruct (NUM_LIGHTS cfg <? 2 * c); lia.
Qed.

Lemma look_once_moves_window_witness :
  exists st',
    look_once Python3 default_config (fun _ => true) centered = OK st' /\
    np st'
    = map (window_color
             (Z.max (Z.min (if NUM_LIGHTS default_config <? 2 * 10
                            then 10 - look_magnitude default_config
                                        (Z.b2z ((fun _ : nat => true)
                                                  (draws centered)))
                            else 10 + look_magnitude default_config
                                        (Z.b2z ((fun _ : nat => true)
                                                  (draws centered))))
                           (NUM_LIGHTS default_config - 2)) 2))
          (upto (NUM_LIGHTS default_config)) /\
    draws st' = S (draws centered).
Proof.
  apply (look_once_moves_window Python3 default_config (fun _ => true)
           centered 10).
  - reflexivity.
  - simpl. lia.
  - reflexivity.
Defined.

Lemma look_once_draws (py : dialect) (cfg : config) (bits : nat -> bool)
  (st st' : engine) :
  look_once py cfg bits st = OK st' -> draws st' = S (draws st).
Proof.
  unfold look_once. destruct (py_index CYAN (np st)) as [first|]; [|done].
  cbn [bind getrandbits1 np]. rewrite look_offset_spec. cbn [bind].
  destruct (for_each _ _ _) as [l|]; [|done]. cbn [bind].
  unfold render. destruct (pprint _); [|done]. cbn [bind].
  by intros [= <-].
Qed.

(** The whole of [look_around]: its log, its frames, its draws. *)
Lemma look_around_run (py : dialect) (cfg : config) (bits : nat -> bool)
  (st : engine) :
  2 <= ALEXA_HALF_POINTER_WIDTH cfg ->
  2 * ALEXA_HALF_POINTER_WIDTH cfg <= NUM_LIGHTS cfg ->
  length (np st) = Z.to_nat (NUM_LIGHTS cfg) ->
  CYAN ∈ np st ->
  exists st' shown,
    look_around py cfg bits st = OK st' /\
    log st' = log st ++ flat_map (look_hold cfg) shown /\
    length shown = (if bits (draws st) then 2 else 1)%nat /\
    Forall (pointer_frame cfg) shown /\
    last shown = Some (np st') /\
    draws st' = (draws st + 1 + length shown)%nat.
Proof.
  intros HH HN Hlen Hin. unfold look_around. cbn [getrandbits1].
  set (st0 := {| np := np st; log := log st; draws := S (draws st) |}).
  destruct (look_once_ok py cfg bits st0 HH HN Hlen Hin)
    as (st1 & Hrun1 & Hlog1 & Hframe1 & Hin1).
  pose proof (look_once_draws _ _ _ _ _ Hrun1) as Hd1.
  assert (Hlen1 : length (np st1) = Z.to_nat (NUM_LIGHTS cfg))
    by (destruct Hframe1 as (c & _ & _ & _ & Hl & _); exact Hl).
  destruct (bits (draws st)); simpl.
  - destruct (look_once_ok py cfg bits st1 HH HN Hlen1 Hin1)
      as (st2 & Hrun2 & Hlog2 & Hframe2 & Hin2).
    pose proof (look_once_draws _ _ _ _ _ Hrun2) as Hd2.
    exists st2, [np st1; np st2]. rewrite Hrun1. cbn [bind]. rewrite Hrun2.
    cbn [bind]. split; [done|]. rewrite Hlog2, Hlog1.
    cbn [log st0 flat_map look_hold app]. rewrite <- app_assoc.
    split; [done|]. split; [done|]. split; [auto|]. split; [done|].
    rewrite Hd2, Hd1. simpl. lia.
  - exists st1, [np st1]. rewrite Hrun1. cbn [bind]. split; [done|].
    rewrite Hlog1. cbn [log st0 flat_map look_hold app].
    split; [done|]. split; [done|]. split; [auto|]. split; [done|].
    rewrite Hd1. simpl. lia.
Qed.

(** X18.  [look_around] draws one random bit for the number of
    repetitions, one or two, and one more bit in each repetition; each
    repetition adds to the log one rendered frame followed by a sleep of
    32 frame intervals, and nothing else. *)
Theorem look_around_log_and_draws (py : dialect) (cfg : config)
  (bits : nat -> bool) (st : engine) :
  2 <= ALEXA_HALF_POINTER_WIDTH cfg ->
  2 * ALEXA_HALF_POINTER_WIDTH cfg <= NUM_LIGHTS cfg ->
  length (np st) = Z.to_nat (NUM_LIGHTS cfg) ->
  CYAN ∈ np st ->
  exists st' shown,
    look_around py cfg bits st = OK st' /\
    length shown = (if bits (draws st) then 2 else 1)%nat /\
    log st'
    = log st
      ++ flat_map (fun f => [Render f;
                             Sleep (py_mul (SLEEP_TIME cfg) (PInt 32))])
                  shown /\
    draws st' = (draws st + 1 + length shown)%nat.
Proof.
  intros HH HN Hlen Hin.
  destruct (look_around_run py cfg bits st HH HN Hlen Hin)
    as (st' & shown & Hrun & Hlog & Hn & _ & _ & Hd).
  exists st', shown. auto.
Qed.

Lemma look_around_log_and_draws_witness :
  exists st' shown,
    look_around Python3 default_config (fun _ => false) centered = OK st' /\
    length shown
    = (if (fun _ : nat => false) (draws centered) then 2 else 1)%nat /\
    log st'
    = log centered
      ++ flat_map (fun f => [Render f;
                             Sleep (py_mul (SLEEP_TIME default_config)
                                           (PInt 32))])
                  shown /\
    draws st' = (draws centered + 1 + length shown)%nat.
Proof.
  apply (look_around_log_and_draws Python3 default_config (fun _ => false)
           centered).
  - simpl. lia.
  - simpl. lia.
  - reflexivity.
  - apply list_elem_of_In. simpl. tauto.
Defined.

(** With a pointer half of 2 the buffer the sweep leaves is the window
    frame around the middle of the strip. *)
Lemma sweep_end_is_window (cfg : config) (m : Z) :
  NUM_LIGHTS cfg = 2 * m -> ALEXA_HALF_POINTER_WIDTH cfg = 2 ->
  paint (NUM_LIGHTS cfg) (sweep_shape cfg (m - ALEXA_HALF_POINTER_WIDTH cfg))
  = map (window_color m) (upto (NUM_LIGHTS cfg)).
Proof.
  intros Hm HH. apply paint_ext. intros i Hi.
  unfold window_color, in_range. rewrite HH. shape_cases.
Qed.

(** X19.  Where [/] is floor division, with a pointer half of 2 on an
    even strip of at least four lights: [turn_on] leaves exactly the frame
    [look_around] expects, the pointer around the middle [NUM_LIGHTS/2],
    and since the middle is not past the middle the first repetition of
    [look_around] adds the drawn magnitude to it. *)
Theorem turn_on_then_look_once (cfg : config) (bits : nat -> bool)
  (st : engine) (fuel : nat) :
  Z.even (NUM_LIGHTS cfg) = true ->
  ALEXA_HALF_POINTER_WIDTH cfg = 2 -> 4 <= NUM_LIGHTS cfg ->
  np st = repeat BLACK (Z.to_nat (NUM_LIGHTS cfg)) ->
  (Z.to_nat (NUM_LIGHTS cfg / 2 - 2) <= fuel)%nat ->
  exists st1 st2,
    turn_on Python2 cfg fuel st = Some (OK st1) /\
    np st1 = map (window_color (NUM_LIGHTS cfg / 2)) (upto (NUM_LIGHTS cfg)) /\
    look_once Python2 cfg bits st1 = OK st2 /\
    np st2
    = map (window_color
             (Z.max (Z.min (NUM_LIGHTS cfg / 2
                            + look_magnitude cfg (Z.b2z (bits (draws st1))))
                           (NUM_LIGHTS cfg - 2)) 2))
          (upto (NUM_LIGHTS cfg)).
Proof.
  intros Heven HH HN Hnp Hfuel.
  destruct (turn_on_floor_division cfg st fuel)
    as (st1 & shown & Hrun & _ & _ & Hnp1 & Hlen1 & _);
    [done | lia | lia | done | by rewrite HH |].
  apply Z.even_spec in Heven as [m Hm].
  replace (NUM_LIGHTS cfg `div` 2) with m in *
    by (rewrite Hm, Z.mul_comm, Z.div_mul; lia).
  rewrite sweep_end_is_window in Hnp1 by done.
  exists st1. eexists. split; [done|]. split; [done|]. split.
  - apply (look_once_exact Python2 cfg bits st1 (m - 2)).
    + rewrite Hnp1. apply py_index_window. lia.
    + lia.
    + done.
  - cbn [np]. unfold clamp_center. rewrite HH.
    replace (m - 2 + 2) with m by lia.
    destruct (Z.ltb_spec (NUM_LIGHTS cfg) (2 * m)); [lia | done].
Qed.

Lemma turn_on_then_look_once_witness :
  exists st1 st2,
    turn_on Python2 default_config 8 (dark default_config) = Some (OK st1) /\
    np st1 = map (window_color (NUM_LIGHTS default_config / 2))
                 (upto (NUM_LIGHTS default_config)) /\
    look_once Python2 default_config (fun _ => true) st1 = OK st2 /\
    np st2
    = map (window_color
             (Z.max (Z.min (NUM_LIGHTS default_config / 2
                            + look_magnitude default_config
                                (Z.b2z ((fun _ : nat => true) (draws st1))))
                           (NUM_LIGHTS default_config - 2)) 2))
          (upto (NUM_LIGHTS default_config)).
Proof.
  apply (turn_on_then_look_once default_config (fun _ => true)
           (dark default_config) 8).
  - reflexivity.
  - reflexivity.
  - simpl. lia.
  - reflexivity.
  - vm_compute. lia.
Defined.

(** ** The play sequence and unit_test, again *)

Lemma fade_to_color_keeps_length (py : dialect) (cfg : config)
  (target : color) (F : Z) (st : engine) :
  0 < NUM_LIGHTS cfg ->
  length (np st) = Z.to_nat (NUM_LIGHTS cfg) ->
  exists st',
    fade_to_color py cfg target (PInt F) st = OK st' /\
    length (np st') = Z.to_nat (NUM_LIGHTS cfg) /\
    (1 <= F -> np st' = repeat target (Z.to_nat (NUM_LIGHTS cfg))).
Proof.
  intros HN Hl. destruct (Z.le_gt_cases F 0) as [Hno|Hsome].
  - exists st. split; [by apply fade_to_color_no_frame|]. split; [done|lia].
  - eexists. split; [apply fade_to_color_int; (done || lia)|].
    cbn [np]. split; [apply repeat_length | done].
Qed.

(** With an int frame interval the pulse is six fades over an int number
    of frames. *)
Lemma alternating_pulse_fade_int_interval (py : dialect) (cfg : config)
  (s : Z) (st : engine) :
  SLEEP_TIME cfg = PInt s -> 0 < NUM_LIGHTS cfg ->
  length (np st) = Z.to_nat (NUM_LIGHTS cfg) ->
  exists st',
    alternating_pulse_fade py cfg st = OK st' /\
    length (np st') = Z.to_nat (NUM_LIGHTS cfg).
Proof.
  intros Hs HN Hl. unfold alternating_pulse_fade. rewrite Hs.
  cbn [py_mul]. change (upto 3) with [0; 1; 2]. cbn [for_each].
  destruct (fade_to_color_keeps_length py cfg CYAN (s * 12) st HN Hl)
    as (s1 & -> & Hl1 & _). cbn [bind].
  destruct (fade_to_color_keeps_length py cfg BLUE (s * 12) s1 HN Hl1)
    as (s2 & -> & Hl2 & _). cbn [bind].
  destruct (fade_to_color_keeps_length py cfg CYAN (s * 12) s2 HN Hl2)
    as (s3 & -> & Hl3 & _). cbn [bind].
  destruct (fade_to_color_keeps_length py cfg BLUE (s * 12) s3 HN Hl3)
    as (s4 & -> & Hl4 & _). cbn [bind].
  destruct (fade_to_color_keeps_length py cfg CYAN (s * 12) s4 HN Hl4)
    as (s5 & -> & Hl5 & _). cbn [bind].
  destruct (fade_to_color_keeps_length py cfg BLUE (s * 12) s5 HN Hl5)
    as (s6 & -> & Hl6 & _). cbn [bind].
  eexists. split; [reflexivity | done].
Qed.

(** What follows the sweep, once the sweep has returned a strip that
    shows a pointer cell. *)
Lemma play_after_turn_on (py : dialect) (cfg : config) (bits : nat -> bool)
  (fuel : nat) (s : Z) (st st1 : engine) :
  turn_on py cfg fuel st = Some (OK st1) ->
  2 <= ALEXA_HALF_POINTER_WIDTH cfg ->
  2 * ALEXA_HALF_POINTER_WIDTH cfg <= NUM_LIGHTS cfg ->
  SLEEP_TIME cfg = PInt s ->
  length (np st1) = Z.to_nat (NUM_LIGHTS cfg) ->
  CYAN ∈ np st1 ->
  exists st',
    play py cfg bits fuel st = Some (OK st') /\
    np st' = repeat BLACK (Z.to_nat (NUM_LIGHTS cfg)).
Proof.
  intros Hon HH HN Hs Hl1 Hin1. unfold play. rewrite Hon.
  destruct (look_around_run py cfg bits st1 HH HN Hl1 Hin1)
    as (st2 & shown & -> & _ & _ & Hframes & Hlast & _).
  cbn [bind alternating_flash].
  assert (Hl2 : length (np st2) = Z.to_nat (NUM_LIGHTS cfg)).
  { apply last_Some in Hlast as (shown' & ->).
    apply Forall_app in Hframes as [_ Hf].
    apply Forall_singleton in Hf as (c & _ & _ & _ & Hl & _). exact Hl. }
  destruct (alternating_pulse_fade_int_interval py cfg s st2 Hs ltac:(lia) Hl2)
    as (st3 & -> & Hl3). cbn [bind]. unfold turn_off.
  destruct (fade_to_color_keeps_length py cfg BLACK 10 st3 ltac:(lia) Hl3)
    as (st4 & -> & _ & Hnp4).
  exists st4. split; [done | apply Hnp4; lia].
Qed.

(** The whole sequence under floor division, with an int frame interval. *)
Lemma play_floor_division_ok (cfg : config) (bits : nat -> bool)
  (fuel : nat) (s : Z) (st : engine) :
  Z.even (NUM_LIGHTS cfg) = true ->
  2 <= ALEXA_HALF_POINTER_WIDTH cfg ->
  2 * ALEXA_HALF_POINTER_WIDTH cfg <= NUM_LIGHTS cfg ->
  SLEEP_TIME cfg = PInt s ->
  np st = repeat BLACK (Z.to_nat (NUM_LIGHTS cfg)) ->
  (Z.to_nat (NUM_LIGHTS cfg / 2 - ALEXA_HALF_POINTER_WIDTH cfg) <= fuel)%nat ->
  exists st',
    play Python2 cfg bits fuel st = Some (OK st') /\
    np st' = repeat BLACK (Z.to_nat (NUM_LIGHTS cfg)).
Proof.
  intros Heven HH HN Hs Hnp Hfuel.
  destruct (turn_on_floor_division cfg st fuel)
    as (st1 & shown & Hon & _ & _ & Hnp1 & Hl1 & _ & Hlit);
    [done | lia | done | done | done |].
  apply (play_after_turn_on Python2 cfg bits fuel s st st1); try done.
  rewrite Hnp1. apply list_elem_of_lookup.
  exists (Z.to_nat (NUM_LIGHTS cfg / 2 - ALEXA_HALF_POINTER_WIDTH cfg)).
  apply Z.even_spec in Heven as [m Hm].
  replace (NUM_LIGHTS cfg `div` 2) with m in *
    by (rewrite Hm, Z.mul_comm, Z.div_mul; lia).
  rewrite paint_lookup by lia. rewrite Z2Nat.id by lia. f_equal.
  shape_cases.
Qed.

(** X20.  Where [/] is floor division and the frame interval is an int,
    [play] on an even strip that is all off, with a pointer half of at
    least 2 that fits twice, runs the whole sequence and returns the strip
    all off again, whatever the random draws: it can be played again. *)
Theorem play_floor_division_returns_dark (cfg : config) (bits : nat -> bool)
  (fuel : nat) (s : Z) (st : engine) :
  Z.even (NUM_LIGHTS cfg) = true ->
  2 <= ALEXA_HALF_POINTER_WIDTH cfg ->
  2 * ALEXA_HALF_POINTER_WIDTH cfg <= NUM_LIGHTS cfg ->
  SLEEP_TIME cfg = PInt s ->
  np st = repeat BLACK (Z.to_nat (NUM_LIGHTS cfg)) ->
  (Z.to_nat (NUM_LIGHTS cfg / 2 - ALEXA_HALF_POINTER_WIDTH cfg) <= fuel)%nat ->
  exists st',
    play Python2 cfg bits fuel st = Some (OK st') /\
    np st' = np st.
Proof.
  intros Heven HH HN Hs Hnp Hfuel. rewrite Hnp.
  by apply (play_floor_division_ok cfg bits fuel s st).
Qed.

Lemma play_floor_division_returns_dark_witness :
  exists st',
    play Python2 (unit_test_config 8 2) (fun _ => true) 2
         (dark (unit_test_config 8 2)) = Some (OK st') /\
    np st' = np (dark (unit_test_config 8 2)).
Proof.
  apply (play_floor_division_returns_dark (unit_test_config 8 2)
           (fun _ => true) 2 0 (dark (unit_test_config 8 2))).
  - reflexivity.
  - simpl. lia.
  - simpl. lia.
  - reflexivity.
  - reflexivity.
  - vm_compute. lia.
Defined.

(** X21.  With a float frame interval, which is what the module asks for
    ([FPS] "has to be a float"), [play] never returns normally: whatever
    the interpreter, the strip, the random draws and the fuel, it raises
    or does not come back. *)
Theorem play_float_interval_never_completes (py : dialect) (cfg : config)
  (bits : nat -> bool) (fuel : nat) (q : Q) (st st' : engine) :
  SLEEP_TIME cfg = PFloat q ->
  play py cfg bits fuel st <> Some (OK st').
Proof.
  intros Hq. unfold play.
  destruct (turn_on py cfg fuel st) as [[st1|e]|]; [|done|done].
  destruct (look_around py cfg bits st1) as [st2|e]; [|done].
  cbn [bind alternating_flash].
  by rewrite (alternating_pulse_fade_float py cfg q).
Qed.

Lemma play_float_interval_never_completes_witness :
  play Python2 default_config (fun _ => true) 8 (dark default_config)
  <> Some (OK (dark default_config)).
Proof.
  apply (play_float_interval_never_completes Python2 default_config
           (fun _ => true) 8 (1 # 24) (dark default_config)
           (dark default_config)).
  reflexivity.
Defined.

(** A round of [unit_test] on an even strip, where [/] is floor
    division. *)
Lemma unit_test_round_floor (bits : nat -> bool) (fuel : nat) (n w : Z) :
  Z.even n = true -> 4 <= n -> (Z.to_nat (n / 2 - 2) <= fuel)%nat ->
  exists npc st',
    init (unit_test_config n w) = OK npc /\
    play Python2 (unit_test_config n w) bits fuel npc = Some (OK st').
Proof.
  intros Heven Hn Hfuel. eexists. 
  destruct (play_floor_division_ok (unit_test_config n w) bits fuel 0
              {| np := repeat BLACK (Z.to_nat n);
                 log := [Render (repeat BLACK (Z.to_nat n)); Sleep (PInt 0)];
                 draws := 0%nat |})
    as (st' & Hplay & _); try done; try (simpl; lia).
  exists st'. split; [|exact Hplay].
  apply (init_ok (unit_test_config n w)). simpl. lia.
Qed.

Lemma unit_test_rounds_floor (bits : Z -> nat -> bool) (fuel : nat)
  (rounds : list Z) :
  forall n w : Z,
    Z.even n = true -> 4 <= n ->
    (Z.to_nat (n / 2 - 2) + length rounds <= S fuel)%nat ->
    unit_test_rounds Python2 bits fuel rounds (n, w)
    = Some (OK (unit_test_globals rounds (n, w))).
Proof.
  induction rounds as [|i rounds IH]; intros n w Heven Hn Hfuel; [done|].
  cbn [unit_test_rounds unit_test_globals fst snd].
  destruct (unit_test_round_floor (bits i) fuel n w)
    as (npc & st' & -> & ->); [done | done | simpl in Hfuel; lia |].
  apply IH.
  - rewrite Z.even_add, Heven. done.
  - lia.
  - simpl in Hfuel.
    replace ((n + 2) `div` 2) with (n `div` 2 + 1)
      by (rewrite <- (Z.div_add n 1 2) by lia; f_equal; lia).
    assert (2 <= n `div` 2) by (apply Z.div_le_lower_bound; lia).
    lia.
Qed.

(** X22.  Where [/] is floor division [unit_test] runs all its 512 rounds,
    every [play] returning, whatever the random draws; it leaves
    [NUM_LIGHTS] at 1028 and [ALEXA_POINTER_WIDTH] at 770. *)
Theorem unit_test_floor_division (bits : Z -> nat -> bool) (fuel : nat) :
  (511 <= fuel)%nat ->
  unit_test Python2 bits fuel = Some (OK (1028, 770)).
Proof.
  intros Hfuel. unfold unit_test.
  rewrite unit_test_rounds_floor;
    [ | done | lia | rewrite upto_length; simpl; lia].
  vm_compute. reflexivity.
Qed.

Lemma unit_test_floor_division_witness :
  unit_test Python2 (fun _ _ => false) 511 = Some (OK (1028, 770)).
Proof.
  apply (unit_test_floor_division (fun _ _ => false) 511). lia.
Defined.

(** The first round of [unit_test], four lights: the sweep has nothing to
    do and [play] returns on every interpreter. *)
Lemma unit_test_first_round (py : dialect) (bits : nat -> bool) (fuel : nat)
  (w : Z) :
  exists npc st',
    init (unit_test_config 4 w) = OK npc /\
    play py (unit_test_config 4 w) bits fuel npc = Some (OK st').
Proof.
  eexists. 
  destruct (play_after_turn_on py (unit_test_config 4 w) bits fuel 0
              {| np := repeat BLACK 4;
                 log := [Render (repeat BLACK 4); Sleep (PInt 0)];
                 draws := 0%nat |}
              (emit (with_np
                       {| np := repeat BLACK 4;
                          log := [Render (repeat BLACK 4); Sleep (PInt 0)];
                          draws := 0%nat |}
                       (repeat CYAN 4))
                    (Sleep (py_mul (PInt 0) (PInt 32)))))
    as (st' & Hplay & _); try done; try (simpl; lia).
  - by apply (turn_on_seeds_cover py (unit_test_config 4 w)).
  - apply list_elem_of_here.
  - exists st'. split; [|exact Hplay]. by apply (init_ok (unit_test_config 4 w)).
Qed.

(** X23.  Where [/] is true division [unit_test] passes its first round,
    four lights, and raises [TypeError] in the second, six lights, from
    the sweep: it never reaches the third. *)
Theorem unit_test_true_division (bits : Z -> nat -> bool) (fuel : nat) :
  unit_test Python3 bits (S fuel) = Some (Raise TypeError) /\
  unit_test_rounds Python3 bits (S fuel) [0] (4, 2) = Some (OK (6, 2)).
Proof.
  unfold unit_test.
  change (upto 512) with (0 :: 1 :: map Z.of_nat (seq 2 510)).
  cbn [unit_test_rounds fst snd].
  destruct (unit_test_first_round Python3 (bits 0) (S fuel) 2)
    as (npc & st' & -> & ->).
  split; [|done].
  change (0 `mod` 4 =? 0) with true. cbv iota.
  rewrite (init_ok (unit_test_config (4 + 2) 2)) by (simpl; lia).
  unfold play. by rewrite turn_on_true_division.
Qed.

(** ** The pulse and the fade, again *)

(** What a fade over any int number of frames adds to the log. *)
Lemma fade_to_color_step_any (py : dialect) (cfg : config) (target : color)
  (F : Z) (st : engine) :
  0 < NUM_LIGHTS cfg ->
  length (np st) = Z.to_nat (NUM_LIGHTS cfg) ->
  exists st' shown,
    fade_to_color py cfg target (PInt F) st = OK st' /\
    log st' = log st ++ shown /\
    length (frames_of shown) = Z.to_nat F /\
    length (np st') = Z.to_nat (NUM_LIGHTS cfg) /\
    (1 <= F -> np st' = repeat target (Z.to_nat (NUM_LIGHTS cfg))) /\
    (F <= 0 -> np st' = np st).
Proof.
  intros HN Hl. destruct (Z.le_gt_cases F 0) as [Hno|Hsome].
  - exists st, []. split; [by apply fade_to_color_no_frame|].
    split; [by rewrite app_nil_r|]. split; [simpl; lia|].
    split; [done|]. split; [lia | done].
  - destruct (fade_to_color_step py cfg target F st) as
      (st' & shown & Hrun & Hlog & Hn & Hnp); [lia | done | done |].
    exists st', shown. split; [done|]. split; [done|]. split; [done|].
    split; [rewrite Hnp; apply repeat_length|]. split; [done | lia].
Qed.

(** X24.  With an int frame interval of [s] seconds the pulse is six
    fades of [12*s] frames each, to the pointer colour and back to the
    background three times, followed by one sleep of [32*s] seconds.  For
    [s >= 1] that is [72*s] frames and a strip left in the background
    colour; for [s <= 0], as in [unit_test], no frame at all and the strip
    left as it was. *)
Theorem alternating_pulse_fade_int_frames (py : dialect) (cfg : config)
  (s : Z) (st : engine) :
  SLEEP_TIME cfg = PInt s -> 0 < NUM_LIGHTS cfg ->
  length (np st) = Z.to_nat (NUM_LIGHTS cfg) ->
  exists st' shown,
    alternating_pulse_fade py cfg st = OK st' /\
    log st' = log st ++ shown ++ [Sleep (PInt (s * 32))] /\
    length (frames_of shown) = Z.to_nat (72 * s) /\
    (1 <= s -> np st' = repeat BLUE (Z.to_nat (NUM_LIGHTS cfg))) /\
    (s <= 0 -> np st' = np st).
Proof.
  intros Hs HN Hl. unfold alternating_pulse_fade. rewrite Hs.
  cbn [py_mul]. change (upto 3) with [0; 1; 2]. cbn [for_each].
  destruct (fade_to_color_step_any py cfg CYAN (s * 12) st HN Hl)
    as (s1 & l1 & -> & Hlog1 & Hn1 & Hl1 & _ & Hk1). cbn [bind].
  destruct (fade_to_color_step_any py cfg BLUE (s * 12) s1 HN Hl1)
    as (s2 & l2 & -> & Hlog2 & Hn2 & Hl2 & _ & Hk2). cbn [bind].
  destruct (fade_to_color_step_any py cfg CYAN (s * 12) s2 HN Hl2)
    as (s3 & l3 & -> & Hlog3 & Hn3 & Hl3 & _ & Hk3). cbn [bind].
  destruct (fade_to_color_step_any py cfg BLUE (s * 12) s3 HN Hl3)
    as (s4 & l4 & -> & Hlog4 & Hn4 & Hl4 & _ & Hk4). cbn [bind].
  destruct (fade_to_color_step_any py cfg CYAN (s * 12) s4 HN Hl4)
    as (s5 & l5 & -> & Hlog5 & Hn5 & Hl5 & _ & Hk5). cbn [bind].
  destruct (fade_to_color_step_any py cfg BLUE (s * 12) s5 HN Hl5)
    as (s6 & l6 & -> & Hlog6 & Hn6 & Hl6 & Hb6 & Hk6). cbn [bind].
  exists (emit s6 (Sleep (PInt (s * 32)))), (l1 ++ l2 ++ l3 ++ l4 ++ l5 ++ l6).
  split; [reflexivity|]. cbn [np log emit].
  split; [rewrite Hlog6, Hlog5, Hlog4, Hlog3, Hlog2, Hlog1;
          by rewrite <- !app_assoc|].
  split; [|split].
  - rewrite !frames_of_app, !length_app, Hn1, Hn2, Hn3, Hn4, Hn5, Hn6. lia.
  - intros Hpos. apply Hb6. lia.
  - intros Hno. rewrite Hk6, Hk5, Hk4, Hk3, Hk2, Hk1 by lia. done.
Qed.

Lemma alternating_pulse_fade_int_frames_witness :
  exists st' shown,
    alternating_pulse_fade Python3 (unit_test_config 4 2)
      (dark (unit_test_config 4 2)) = OK st' /\
    log st' = log (dark (unit_test_config 4 2))
              ++ shown ++ [Sleep (PInt (0 * 32))] /\
    length (frames_of shown) = Z.to_nat (72 * 0) /\
    (1 <= 0 -> np st' = repeat BLUE (Z.to_nat (NUM_LIGHTS (unit_test_config 4 2)))) /\
    (0 <= 0 -> np st' = np (dark (unit_test_config 4 2))).
Proof.
  apply (alternating_pulse_fade_int_frames Python3 (unit_test_config 4 2) 0
           (dark (unit_test_config 4 2))); reflexivity.
Defined.

(** X25.  Where [/] is floor division a fade toward a darker value steps
    past it: when the channel has to go down by less than the number of
    frames, the floor of the quotient is -1, each frame takes one more off
    the starting value, and from frame [start - target] on the value is
    below the target. *)
Theorem fade_channel_floor_steps_past (target start F k : Z) :
  0 < start - target < F -> 0 <= k ->
  fade_channel Python2 target start (PInt F) k = OK (start - (k + 1)) /\
  (start - target <= k -> start - (k + 1) < target).
Proof.
  intros Hd Hk. split; [|lia].
  rewrite fade_channel_int by lia. unfold fade_value, fade_quotient.
  replace ((target - start) `div` F) with (-1)
    by (apply (Z.div_unique (target - start) F (-1) (target - start + F)); lia).
  apply (f_equal OK). lia.
Qed.

Lemma fade_channel_floor_steps_past_witness :
  fade_channel Python2 0 5 (PInt 10) 8 = OK (5 - (8 + 1)) /\
  (5 - 0 <= 8 -> 5 - (8 + 1) < 0).
Proof.
  apply (fade_channel_floor_steps_past 0 5 10 8); lia.
Defined.

(** The green channel of the background colour during [turn_off], where
    [/] is floor division: frame 8 shows it at -4. *)
Example turn_off_floor_division_green :
  (fun r => match r with
            | OK st => frames_of (log st) !! 8%nat
            | Raise _ => None
            end)
    (turn_off Python2 default_config
       {| np := repeat BLUE 20; log := []; draws := 0%nat |})
  = Some (repeat (0, -4, 4) 20).
Proof. vm_compute. reflexivity. Qed.
